(** * face-timer: blink tracking, attention scoring, presence gating and the
    task timer, embedded from the TypeScript sources.

    Conventions of the embedding.
    - A JavaScript [number] that holds a measurement (EAR, MAR, angles,
      coordinates) is an IEEE-754 binary64 value: Rocq's primitive [float].
      [a < b] is [(a <? b)%float], [a >= b] is [(b <=? a)%float]; both are
      [false] as soon as one side is NaN, as in JavaScript.
    - A [number] that holds a [Date.now()] reading, a duration in ms, an
      array length or the attention score (100 minus integer deductions) is
      an integer: [Z].
    - React state is passed explicitly and [Date.now()] is an argument.
      An operation takes the state it reads and returns the state its
      setters leave. That is the whole of it for what runs from a fresh
      closure: the provider's operations, the effects, a single call.
      The 150ms interval of [startDetection] is a closure of one render
      and reads that render's state for as long as it lives: its ticks
      take two states, the one held and the one written (module
      [Closure]).
    - [console.log] and drawing on the canvas are not modelled. *)

From Stdlib Require Import ZArith Lia List Bool Floats Uint63.
From stdpp Require Import gmap strings.
Import ListNotations.

Set Warnings "-inexact-float".
Local Open Scope Z_scope.

(** ** src/hooks/useFaceDetection.ts *)
Module FaceDetection.

Record Point := { x : float; y : float }.

(** [Math.pow(v, 2)] is taken as the product [v * v]. *)
Definition euclideanDistance (a b : Point) : float :=
  PrimFloat.sqrt ((x a - x b) * (x a - x b) + (y a - y b) * (y a - y b))%float.

Definition computeAdvancedEAR (eye : list Point) : float :=
  match eye with
  | p0 :: p1 :: p2 :: p3 :: p4 :: p5 :: _ =>
      let vertical1 := euclideanDistance p1 p5 in
      let vertical2 := euclideanDistance p2 p4 in
      let horizontal := euclideanDistance p0 p3 in
      ((vertical1 + vertical2) / (2.0 * horizontal))%float
  | _ => 0.25%float   (* eye.length < 6 *)
  end.

Definition computeMAR (mouth : list Point) : float :=
  if (length mouth <? 20)%nat then 0%float
  else
    match mouth !! 12%nat, mouth !! 13%nat, mouth !! 14%nat, mouth !! 15%nat,
          mouth !! 16%nat, mouth !! 17%nat, mouth !! 18%nat, mouth !! 19%nat with
    | Some m12, Some m13, Some m14, Some m15,
      Some m16, Some m17, Some m18, Some m19 =>
        let vertical1 := euclideanDistance m13 m19 in
        let vertical2 := euclideanDistance m14 m18 in
        let vertical3 := euclideanDistance m15 m17 in
        let horizontal := euclideanDistance m12 m16 in
        ((vertical1 + vertical2 + vertical3) / (3.0 * horizontal))%float
    | _, _, _, _, _, _, _, _ => 0%float
    end.

(** The five regions of [faceapi.FaceLandmarks68] the hook reads. *)
Record Landmarks := {
  getNose : list Point;
  getJawOutline : list Point;
  getLeftEye : list Point;
  getRightEye : list Point;
  getMouth : list Point
}.

Record HeadPose := { yaw : float; pitch : float; roll : float }.

Definition Math_PI : float := 3.141592653589793%float.

Definition number_of_nat (n : nat) : float :=
  PrimFloat.of_uint63 (Uint63.of_Z (Z.of_nat n)).

Section Host.
(** [Math.atan2] and [Math.atan] are the host's; the embedding takes them
    as they come. *)
Variable Math_atan2 : float -> float -> float.
Variable Math_atan : float -> float.

(** [None] stands for the TypeError raised when a landmark that is
    dereferenced is missing ([undefined.x]). *)
Definition estimateHeadPose (landmarks : Landmarks) : option HeadPose :=
  noseTip ← getNose landmarks !! 3%nat;
  leftEyeCorner ← getLeftEye landmarks !! 0%nat;
  rightEyeCorner ← getRightEye landmarks !! 3%nat;
  leftMouth ← getMouth landmarks !! 0%nat;
  rightMouth ← getMouth landmarks !! 6%nat;
  let eyeCenter :=
    {| x := ((x leftEyeCorner + x rightEyeCorner) / 2)%float;
       y := ((y leftEyeCorner + y rightEyeCorner) / 2)%float |} in
  let noseToEyeCenter := (x noseTip - x eyeCenter)%float in
  let yaw :=
    (Math_atan2 noseToEyeCenter
                (PrimFloat.abs (x leftEyeCorner - x rightEyeCorner))
     * (180 / Math_PI))%float in
  let eyeToNose := (y noseTip - y eyeCenter)%float in
  let noseToMouth :=
    PrimFloat.abs (y noseTip - (y leftMouth + y rightMouth) / 2)%float in
  let pitch := (Math_atan2 eyeToNose noseToMouth * (180 / Math_PI))%float in
  let eyeSlope :=
    ((y rightEyeCorner - y leftEyeCorner)
     / (x rightEyeCorner - x leftEyeCorner))%float in
  let roll := (Math_atan eyeSlope * (180 / Math_PI))%float in
  Some {| yaw := yaw; pitch := pitch; roll := roll |}.

Definition sum_by (f : Point -> float) (l : list Point) : float :=
  fold_left (fun sum p => (sum + f p)%float) l 0%float.

Definition advancedGazeEstimation (landmarks : Landmarks) : option string :=
  let leftEye := getLeftEye landmarks in
  let rightEye := getRightEye landmarks in
  let nose := getNose landmarks in
  let leftEyeCenter :=
    {| x := (sum_by x leftEye / number_of_nat (length leftEye))%float;
       y := (sum_by y leftEye / number_of_nat (length leftEye))%float |} in
  let rightEyeCenter :=
    {| x := (sum_by x rightEye / number_of_nat (length rightEye))%float;
       y := (sum_by y rightEye / number_of_nat (length rightEye))%float |} in
  noseTip ← nose !! 3%nat;
  let eyeCenter :=
    {| x := ((x leftEyeCenter + x rightEyeCenter) / 2)%float;
       y := ((y leftEyeCenter + y rightEyeCenter) / 2)%float |} in
  let gazeVector :=
    {| x := (x noseTip - x eyeCenter)%float;
       y := (y noseTip - y eyeCenter)%float |} in
  let horizontalThreshold := 8%float in
  let verticalThreshold := 6%float in
  if (horizontalThreshold <? PrimFloat.abs (x gazeVector))%float then
    Some (if (0 <? x gazeVector)%float then "right" else "left")
  else if (verticalThreshold <? PrimFloat.abs (y gazeVector))%float then
    Some (if (0 <? y gazeVector)%float then "down" else "up")
  else Some "center".

End Host.

Definition calculateAttentionScore
    (ear mar : float) (headPose : HeadPose) (gazeDirection : string)
    (blinkRate : Z) : Z :=
  let score := 100 in
  let score :=
    if (ear <? 0.15)%float then score - 40
    else if (ear <? 0.20)%float then score - 25
    else if (ear <? 0.25)%float then score - 10
    else score in
  let score :=
    if (0.7 <? mar)%float then score - 30
    else if (0.5 <? mar)%float then score - 15
    else score in
  let totalHeadMovement :=
    (PrimFloat.abs (yaw headPose) + PrimFloat.abs (pitch headPose)
     + PrimFloat.abs (roll headPose))%float in
  let score :=
    if (45 <? totalHeadMovement)%float then score - 25
    else if (25 <? totalHeadMovement)%float then score - 15
    else score in
  let score := if String.eqb gazeDirection "center" then score else score - 20 in
  let score :=
    if blinkRate <? 8 then score - 35
    else if blinkRate <? 12 then score - 20
    else if 35 <? blinkRate then score - 25
    else if 25 <? blinkRate then score - 10
    else score in
  Z.max 0 (Z.min 100 score).

Inductive FatigueLevel := low | medium | high.

Definition assessFatigueLevel
    (attentionScore : Z) (ear : float) (consecutiveDrowsyFrames : Z)
    : FatigueLevel :=
  if (attentionScore <? 30) || (ear <? 0.15)%float || (10 <? consecutiveDrowsyFrames)
  then high
  else if (attentionScore <? 60) || (ear <? 0.20)%float || (5 <? consecutiveDrowsyFrames)
  then medium
  else low.

(** *** The blink tracker *)

Record BlinkState := {
  blinkTimestamps : list Z;
  isEyeClosed : bool;
  lastBlinkTime : Z
}.

Definition BLINK_THRESHOLD : float := 0.25%float.
Definition MIN_BLINK_DURATION : Z := 100.
Definition MAX_BLINK_DURATION : Z := 500.

(** [timestamp => currentTime - timestamp <= 60000] *)
Definition withinLastMinute (currentTime timestamp : Z) : bool :=
  currentTime - timestamp <=? 60000.

(** The state after the call and the number returned. The count is taken
    on [blinkTimestamps] as the call found it; the functional update of
    [setBlinkTimestamps] works on the same list. *)
Definition detectBlink (st : BlinkState) (ear : float) (currentTime : Z)
    : BlinkState * Z :=
  let st' :=
    if (ear <? BLINK_THRESHOLD)%float && negb (isEyeClosed st) then
      {| blinkTimestamps := blinkTimestamps st;
         isEyeClosed := true;
         lastBlinkTime := currentTime |}
    else if (BLINK_THRESHOLD <=? ear)%float && isEyeClosed st then
      let blinkDuration := currentTime - lastBlinkTime st in
      {| blinkTimestamps :=
           if (MIN_BLINK_DURATION <=? blinkDuration)
              && (blinkDuration <=? MAX_BLINK_DURATION)
           then List.filter (withinLastMinute currentTime)
                            (blinkTimestamps st ++ [currentTime])
           else blinkTimestamps st;
         isEyeClosed := false;
         lastBlinkTime := lastBlinkTime st |}
    else st in
  let recentBlinks :=
    List.filter (withinLastMinute currentTime) (blinkTimestamps st) in
  (st', Z.of_nat (length recentBlinks)).

Inductive BlinkStatus :=
  VerySleepy | Sleepy | Normal | SlightlyTense | VeryTense.

Definition assessDrowsinessFromBlinks (blinksPerMinute : Z) : bool * BlinkStatus :=
  if blinksPerMinute <? 8 then (true, VerySleepy)
  else if blinksPerMinute <? 12 then (true, Sleepy)
  else if blinksPerMinute <=? 25 then (false, Normal)
  else if blinksPerMinute <=? 35 then (false, SlightlyTense)
  else (false, VeryTense).

(** *** The sampling loop *)

Record FaceAnalysisResult := {
  isDrowsy : bool;
  isAttentive : bool;
  emotion : string;
  ear : float;
  mar : float;
  gazeDirection : string;
  headPose : HeadPose;
  blinkRate : Z;
  attentionScore : Z;
  fatigueLevel : FatigueLevel;
  confidence : Z
}.

(** What [detectSingleFace(...).withFaceLandmarks().withFaceExpressions()]
    resolves to: the landmarks, the first entry of
    [expressions.asSortedArray()] when there is one, and the detection
    score. *)
Record FaceDescription := {
  landmarks : Landmarks;
  topExpression : option string;
  detectionScore : float
}.

Inductive DetectorOutcome :=
  | DetectorThrows
  | Detected (detection : option FaceDescription).

Inductive Callback :=
  | FaceDetected (result : FaceAnalysisResult)
  | FaceNotDetected.

(** State and refs of the hook that the sampling loop and
    [stopDetection] touch. [detectionInterval] and [animationFrame] say
    whether the ref holds a handle. *)
Record DetectionState := {
  isDetecting : bool;
  detectionInterval : bool;
  animationFrame : bool;
  lastDetectionTime : Z;
  frameCount : Z;
  lastFullDetections : list FaceDescription;
  consecutiveDrowsyFrames : Z;
  earHistory : list float;
  attentionHistory : list Z;
  blink : BlinkState
}.

Definition initialBlinkState : BlinkState :=
  {| blinkTimestamps := []; isEyeClosed := false; lastBlinkTime := 0 |}.

(** The hook on mount at [now] ([useState(Date.now())]). *)
Definition initialDetectionState (now : Z) : DetectionState :=
  {| isDetecting := false; detectionInterval := false; animationFrame := false;
     lastDetectionTime := now; frameCount := 0; lastFullDetections := [];
     consecutiveDrowsyFrames := 0; earHistory := []; attentionHistory := [];
     blink := initialBlinkState |}.

(** [array.slice(-n)] *)
Definition slice_last {A} (n : nat) (l : list A) : list A :=
  drop (length l - n)%nat l.

(** [emotion = ...expression || 'neutral'] *)
Definition emotionOf (desc : FaceDescription) : string :=
  match topExpression desc with
  | Some e => if String.eqb e EmptyString then "neutral" else e
  | None => "neutral"
  end.

Section Loop.
(** The host's [Math.atan2], [Math.atan] and [Math.round]. *)
Variable Math_atan2 : float -> float -> float.
Variable Math_atan : float -> float.
Variable Math_round : float -> Z.

(** The [if (detection)] branch of the interval callback. The second
    component is the argument [onFaceDetected] is called with, [None] when
    a TypeError reached the [catch] first. *)
Definition faceBranch (st : DetectionState) (desc : FaceDescription) (now : Z)
    : DetectionState * option FaceAnalysisResult :=
  let seen :=
    {| isDetecting := isDetecting st; detectionInterval := detectionInterval st;
       animationFrame := animationFrame st;
       lastDetectionTime := now;
       frameCount := frameCount st;
       lastFullDetections := [desc];
       consecutiveDrowsyFrames := consecutiveDrowsyFrames st;
       earHistory := earHistory st; attentionHistory := attentionHistory st;
       blink := blink st |} in
  match estimateHeadPose Math_atan2 Math_atan (landmarks desc) with
  | None => (seen, None)
  | Some pose =>
    let ear :=
      ((computeAdvancedEAR (getLeftEye (landmarks desc))
        + computeAdvancedEAR (getRightEye (landmarks desc))) / 2)%float in
    let mar := computeMAR (getMouth (landmarks desc)) in
    match advancedGazeEstimation (landmarks desc) with
    | None => (seen, None)
    | Some gaze =>
      let emotion := emotionOf desc in
      let '(blink', blinkRate) := detectBlink (blink st) ear now in
      let '(isDrowsyFromBlinks, _) := assessDrowsinessFromBlinks blinkRate in
      let isDrowsyFromEyes := (ear <? 0.20)%float in
      let isDrowsyFromMouth := (0.4 <? mar)%float in
      let isDrowsyFromHead := (25 <? PrimFloat.abs (pitch pose))%float in
      let isDrowsy :=
        isDrowsyFromEyes || isDrowsyFromMouth || isDrowsyFromHead
        || isDrowsyFromBlinks in
      let attentionScore :=
        calculateAttentionScore ear mar pose gaze blinkRate in
      let fatigueLevel :=
        assessFatigueLevel attentionScore ear (consecutiveDrowsyFrames st) in
      ({| isDetecting := isDetecting st;
          detectionInterval := detectionInterval st;
          animationFrame := animationFrame st;
          lastDetectionTime := now;
          frameCount := frameCount st;
          lastFullDetections := [desc];
          consecutiveDrowsyFrames :=
            if isDrowsy then consecutiveDrowsyFrames st + 1 else 0;
          earHistory := slice_last 30 (earHistory st ++ [ear]);
          attentionHistory :=
            slice_last 60 (attentionHistory st ++ [attentionScore]);
          blink := blink' |},
       Some {| isDrowsy := isDrowsy;
               isAttentive := 70 <? attentionScore;
               emotion := emotion;
               ear := ear;
               mar := mar;
               gazeDirection := gaze;
               headPose := pose;
               blinkRate := blinkRate;
               attentionScore := attentionScore;
               fatigueLevel := fatigueLevel;
               confidence := Math_round (detectionScore desc * 100)%float |})
    end
  end.

(** The [else] branch: no face in this sample. The boolean says whether
    [onFaceNotDetected] is called. *)
Definition noFaceBranch (st : DetectionState) (now : Z)
    : DetectionState * bool :=
  let fire := 5000 <? now - lastDetectionTime st in
  ({| isDetecting := isDetecting st; detectionInterval := detectionInterval st;
      animationFrame := animationFrame st;
      lastDetectionTime := if fire then now else lastDetectionTime st;
      frameCount := frameCount st;
      lastFullDetections := [];
      consecutiveDrowsyFrames := consecutiveDrowsyFrames st;
      earHistory := earHistory st; attentionHistory := attentionHistory st;
      blink := blink st |},
   fire).

Definition countFrame (st : DetectionState) : DetectionState :=
  {| isDetecting := isDetecting st; detectionInterval := detectionInterval st;
     animationFrame := animationFrame st;
     lastDetectionTime := lastDetectionTime st;
     frameCount := frameCount st + 1;
     lastFullDetections := lastFullDetections st;
     consecutiveDrowsyFrames := consecutiveDrowsyFrames st;
     earHistory := earHistory st; attentionHistory := attentionHistory st;
     blink := blink st |}.

(** One tick of the 150ms interval at time [now]: [videoReady] is
    [video && video.readyState >= video.HAVE_ENOUGH_DATA]. *)
Definition sampleStep (st : DetectionState) (videoReady : bool)
    (outcome : DetectorOutcome) (now : Z) : DetectionState * option Callback :=
  if videoReady && isDetecting st then
    let st := countFrame st in
    match outcome with
    | DetectorThrows => (st, None)
    | Detected (Some desc) =>
        let '(st', result) := faceBranch st desc now in
        (st', FaceDetected <$> result)
    | Detected None =>
        let '(st', fire) := noFaceBranch st now in
        (st', if fire then Some FaceNotDetected else None)
    end
  else (st, None).

End Loop.

(** [startDetection] once the model is loaded and the video has data;
    a second call while detecting returns at once. *)
Definition startDetection (st : DetectionState) (now : Z) : DetectionState :=
  if isDetecting st then st
  else
    {| isDetecting := true; detectionInterval := true; animationFrame := true;
       lastDetectionTime := now;
       frameCount := 0;
       lastFullDetections := lastFullDetections st;
       consecutiveDrowsyFrames := consecutiveDrowsyFrames st;
       earHistory := earHistory st; attentionHistory := attentionHistory st;
       blink := blink st |}.

Definition memoizedStopDetection (st : DetectionState) : DetectionState :=
  {| isDetecting := false;
     detectionInterval := false;
     animationFrame := false;
     lastDetectionTime := lastDetectionTime st;
     lastFullDetections := [];
     frameCount := 0;
     consecutiveDrowsyFrames := 0;
     earHistory := [];
     attentionHistory := [];
     blink := {| blinkTimestamps := []; isEyeClosed := false; lastBlinkTime := 0 |} |}.

End FaceDetection.

(** ** contexts/TimerContext.tsx: the task timer *)
Module TimerContext.

(** The fields of a task the task selector declares. *)
Record Task := {
  id : string;
  title : string;
  icon : option string;
  group_id : string;
  color : option string
}.

(** The value stored under [timer_state]. *)
Record SavedTimerState := {
  task : option Task;
  elapsed : Z;
  active : bool;
  paused : bool
}.

(** State of [TimerProvider] and the two [localStorage] entries it writes.
    [taskTimes] is the [Record<string, number>] of accumulated times. *)
Record TimerState := {
  activeTask : option Task;
  isActive : bool;
  isPaused : bool;
  elapsedTime : Z;
  startTime : option Z;
  pausedTime : Z;
  lastElapsedTime : Z;
  taskTimes : gmap string Z;
  stored_task_times : option (gmap string Z);
  stored_timer_state : option SavedTimerState
}.

Definition initialTimerState : TimerState :=
  {| activeTask := None; isActive := false; isPaused := false;
     elapsedTime := 0; startTime := None; pausedTime := 0;
     lastElapsedTime := 0; taskTimes := ∅;
     stored_task_times := None; stored_timer_state := None |}.

(** [taskTimes[task.id] || 0] *)
Definition previousTimeFor (times : gmap string Z) (t : Task) : Z :=
  default 0 (times !! id t).

Definition startTimer (s : TimerState) (t : Task) (now : Z) : TimerState :=
  let previousTimeForTask := previousTimeFor (taskTimes s) t in
  if 0 <? previousTimeForTask then
    {| activeTask := Some t; isActive := true; isPaused := false;
       pausedTime := 0;
       startTime := Some (now - previousTimeForTask);
       elapsedTime := previousTimeForTask;
       lastElapsedTime := previousTimeForTask;
       taskTimes := taskTimes s;
       stored_task_times := stored_task_times s;
       stored_timer_state := stored_timer_state s |}
  else
    {| activeTask := Some t; isActive := true; isPaused := false;
       pausedTime := 0;
       startTime := Some now;
       elapsedTime := 0;
       lastElapsedTime := 0;
       taskTimes := taskTimes s;
       stored_task_times := stored_task_times s;
       stored_timer_state := stored_timer_state s |}.

(** The 10ms interval of the provider, running while
    [isActive && !isPaused]; [if (startTime)] is false for [null] and
    for [0]. *)
Definition tick (s : TimerState) (now : Z) : TimerState :=
  if isActive s && negb (isPaused s) then
    match startTime s with
    | Some st =>
        if st =? 0 then s
        else
          {| activeTask := activeTask s; isActive := isActive s;
             isPaused := isPaused s;
             elapsedTime := now - st;
             startTime := startTime s; pausedTime := pausedTime s;
             lastElapsedTime := now - st;
             taskTimes := taskTimes s;
             stored_task_times := stored_task_times s;
             stored_timer_state := stored_timer_state s |}
    | None => s
    end
  else s.

Definition pauseTimer (s : TimerState) : TimerState :=
  if isActive s && negb (isPaused s) then
    {| activeTask := activeTask s; isActive := isActive s;
       isPaused := true;
       elapsedTime := elapsedTime s;
       startTime := startTime s; pausedTime := pausedTime s;
       lastElapsedTime := elapsedTime s;
       taskTimes := taskTimes s;
       stored_task_times := stored_task_times s;
       stored_timer_state := stored_timer_state s |}
  else s.

Definition resumeTimer (s : TimerState) (now : Z) : TimerState :=
  if isPaused s then
    let newStartTime := now - lastElapsedTime s in
    {| activeTask := activeTask s; isActive := isActive s;
       isPaused := false;
       elapsedTime := elapsedTime s;
       startTime := Some newStartTime; pausedTime := pausedTime s;
       lastElapsedTime := lastElapsedTime s;
       taskTimes := taskTimes s;
       stored_task_times := stored_task_times s;
       stored_timer_state := stored_timer_state s |}
  else s.

Definition stopTimer (s : TimerState) : TimerState :=
  let saved :=
    match isActive s, activeTask s with
    | true, Some t =>
        let taskId := id t in
        let updatedTaskTimes := <[taskId := elapsedTime s]> (taskTimes s) in
        (updatedTaskTimes, elapsedTime s, Some updatedTaskTimes)
    | _, _ => (taskTimes s, lastElapsedTime s, stored_task_times s)
    end in
  let '(times, lastElapsed, storedTimes) := saved in
  {| activeTask := activeTask s;   (* activeTask is kept: setActiveTask(null) is commented out *)
     isActive := false;
     isPaused := false;
     elapsedTime := elapsedTime s;
     startTime := None;
     pausedTime := 0;
     lastElapsedTime := lastElapsed;
     taskTimes := times;
     stored_task_times := storedTimes;
     stored_timer_state :=
       Some {| task := activeTask s; elapsed := elapsedTime s;
               active := false; paused := false |} |}.

Definition resetTimer (s : TimerState) : TimerState :=
  let '(times, storedTimes) :=
    match activeTask s with
    | Some t =>
        let updatedTaskTimes := delete (id t) (taskTimes s) in
        (updatedTaskTimes, Some updatedTaskTimes)
    | None => (taskTimes s, stored_task_times s)
    end in
  {| activeTask := None; isActive := false; isPaused := false;
     elapsedTime := 0; lastElapsedTime := 0; startTime := None;
     pausedTime := 0;
     taskTimes := times;
     stored_task_times := storedTimes;
     stored_timer_state := None |}.

(** The three phases of the timer, read off the two flags. *)
Inductive Phase := Idle | Running | Paused.

Definition phase (s : TimerState) : Phase :=
  if isActive s then (if isPaused s then Paused else Running) else Idle.

(** [saveTimerState], which the provider runs after every change of the
    task, the elapsed time, the flags or the per-task times. *)
Definition saveTimerState (s : TimerState) : TimerState :=
  {| activeTask := activeTask s; isActive := isActive s;
     isPaused := isPaused s; elapsedTime := elapsedTime s;
     startTime := startTime s; pausedTime := pausedTime s;
     lastElapsedTime := lastElapsedTime s;
     taskTimes := taskTimes s;
     stored_task_times := Some (taskTimes s);
     stored_timer_state :=
       match activeTask s with
       | Some t =>
           Some {| task := Some t; elapsed := elapsedTime s;
                   active := isActive s; paused := isPaused s |}
       | None => stored_timer_state s
       end |}.

(** The mount effect of a fresh provider at time [now], reading the two
    storage entries. *)
Definition loadTimerState
    (storedTimes : option (gmap string Z))
    (storedState : option SavedTimerState) (now : Z) : TimerState :=
  let times := default ∅ storedTimes in
  match storedState with
  | Some {| task := Some t; elapsed := e; active := a; paused := p |} =>
      if a && negb p then
        {| activeTask := Some t; isActive := true; isPaused := false;
           elapsedTime := e; startTime := Some (now - e); pausedTime := 0;
           lastElapsedTime := e; taskTimes := times;
           stored_task_times := storedTimes;
           stored_timer_state := storedState |}
      else
        {| activeTask := Some t; isActive := a; isPaused := p;
           elapsedTime := e; startTime := None; pausedTime := 0;
           lastElapsedTime := e; taskTimes := times;
           stored_task_times := storedTimes;
           stored_timer_state := storedState |}
  | _ =>
      {| activeTask := None; isActive := false; isPaused := false;
         elapsedTime := 0; startTime := None; pausedTime := 0;
         lastElapsedTime := 0; taskTimes := times;
         stored_task_times := storedTimes;
         stored_timer_state := storedState |}
  end.

(** A page reload at [now]: a fresh provider over the storage [s] left. *)
Definition reload (s : TimerState) (now : Z) : TimerState :=
  loadTimerState (stored_task_times s) (stored_timer_state s) now.

End TimerContext.

(** ** components/timer/Timer.tsx: the presence gate around the timer

    The component reads its flags and the timer's operations through the
    state hook [useTimerState]; [pauseTimer] and [resumeTimer] are the
    provider's operations of [TimerContext]. *)
Module TimerView.
Import FaceDetection TimerContext.

(** The camera-mode flags the component takes from its state hook.
    [faceDetectionTimeout] says whether [faceDetectionTimeoutRef.current]
    holds a pending timeout. *)
Record GateState := {
  isCameraMode : bool;
  isWaitingForFace : bool;
  canStartTimer : bool;
  faceDetectedStartTime : option Z;
  faceDetectionTimeout : bool;
  lastAnalysisResult : option FaceAnalysisResult
}.

(** Modelled from the spec: [startFaceDetectionTimer] of the state hook
    [useTimerState], which is not among the sources. The spec has the
    first analysis result received while waiting for a face start a
    confirmation timer and record [since = now]. *)
Definition startFaceDetectionTimer (g : GateState) (now : Z) : GateState :=
  {| isCameraMode := isCameraMode g; isWaitingForFace := isWaitingForFace g;
     canStartTimer := canStartTimer g;
     faceDetectedStartTime := Some now;
     faceDetectionTimeout := true;
     lastAnalysisResult := lastAnalysisResult g |}.

(** [!faceDetectedStartTime]: true for [null] and for [0]. *)
Definition noStartTime (t : option Z) : bool :=
  match t with
  | None => true
  | Some v => v =? 0
  end.

Definition setLastAnalysisResult (g : GateState) (r : FaceAnalysisResult)
    : GateState :=
  {| isCameraMode := isCameraMode g; isWaitingForFace := isWaitingForFace g;
     canStartTimer := canStartTimer g;
     faceDetectedStartTime := faceDetectedStartTime g;
     faceDetectionTimeout := faceDetectionTimeout g;
     lastAnalysisResult := Some r |}.

Definition onFaceDetected (g : GateState) (t : TimerState)
    (result : option FaceAnalysisResult) (now : Z) : GateState * TimerState :=
  match result with
  | None => (g, t)
  | Some r =>
    let g1 := setLastAnalysisResult g r in
    let '(g2, t2) :=
      if isWaitingForFace g && negb (canStartTimer g) then
        (if noStartTime (faceDetectedStartTime g)
         then startFaceDetectionTimer g1 now else g1, t)
      else if isCameraMode g && isActive t && isPaused t
              && (40 <? attentionScore r) then
        (g1, resumeTimer t now)
      else (g1, t) in
    if isCameraMode g
       && (match fatigueLevel r with high => true | _ => false end
           || (attentionScore r <? 30))
       && isActive t && negb (isPaused t)
    then (g2, pauseTimer t2)
    else (g2, t2)
  end.

Definition onFaceNotDetected (g : GateState) (t : TimerState)
    : GateState * TimerState :=
  let g' :=
    {| isCameraMode := isCameraMode g; isWaitingForFace := isWaitingForFace g;
       canStartTimer := false;
       faceDetectedStartTime := None;
       faceDetectionTimeout := false;
       lastAnalysisResult := lastAnalysisResult g |} in
  if negb (isActive t) then (g', t)
  else if isCameraMode g && isActive t && negb (isPaused t)
          && bool_decide (is_Some (activeTask t))
  then (g', pauseTimer t)
  else (g', t).

(** The hook, the gate flags and the timer side by side. *)
Record App := {
  detection : DetectionState;
  gate : GateState;
  timer : TimerState
}.

Definition deliver (cb : option Callback) (g : GateState) (t : TimerState)
    (now : Z) : GateState * TimerState :=
  match cb with
  | None => (g, t)
  | Some (FaceDetected r) => onFaceDetected g t (Some r) now
  | Some FaceNotDetected => onFaceNotDetected g t
  end.

Section Host.
Variable Math_atan2 : float -> float -> float.
Variable Math_atan : float -> float.
Variable Math_round : float -> Z.

(** One tick of the sampling interval with its callback delivered. *)
Definition sample (app : App) (videoReady : bool)
    (outcome : DetectorOutcome) (now : Z) : App :=
  let '(d, cb) :=
    sampleStep Math_atan2 Math_atan Math_round
               (detection app) videoReady outcome now in
  let '(g, t) := deliver cb (gate app) (timer app) now in
  {| detection := d; gate := g; timer := t |}.
End Host.

(** The effect that arms the wait for a face: camera mode on, timer not
    active, model loaded, not yet detecting. *)
Definition armFaceWaiting (app : App) (isModelLoaded : bool) (now : Z) : App :=
  if isCameraMode (gate app) && negb (isActive (timer app)) && isModelLoaded
     && negb (isDetecting (detection app))
  then
    {| detection := startDetection (detection app) now;
       gate :=
         {| isCameraMode := isCameraMode (gate app);
            isWaitingForFace := true;
            canStartTimer := false;
            faceDetectedStartTime := None;
            faceDetectionTimeout := false;
            lastAnalysisResult := lastAnalysisResult (gate app) |};
       timer := timer app |}
  else app.

(** [stopDetection] as the component calls it. *)
Definition stopDetection (app : App) : App :=
  {| detection := memoizedStopDetection (detection app);
     gate := gate app;
     timer := timer app |}.

(** The effect on [canStartTimer]: with the face confirmed and the timer
    not active, start the selected task, or end the wait and keep
    [canStartTimer] until a task is chosen. [startTimer], [activeTask] and
    [isActive] are taken to be the provider's, as [pauseTimer] and
    [resumeTimer] are. *)
Definition autoStartEffect (g : GateState) (t : TimerState) (now : Z)
    : GateState * TimerState :=
  if canStartTimer g && negb (isActive t) then
    match activeTask t with
    | Some tk =>
        ({| isCameraMode := isCameraMode g; isWaitingForFace := false;
            canStartTimer := false;
            faceDetectedStartTime := faceDetectedStartTime g;
            faceDetectionTimeout := faceDetectionTimeout g;
            lastAnalysisResult := lastAnalysisResult g |},
         startTimer t tk now)
    | None =>
        ({| isCameraMode := isCameraMode g; isWaitingForFace := false;
            canStartTimer := canStartTimer g;
            faceDetectedStartTime := faceDetectedStartTime g;
            faceDetectionTimeout := faceDetectionTimeout g;
            lastAnalysisResult := lastAnalysisResult g |},
         t)
    end
  else (g, t).

(** [handlePause] of the pause button, as the earlier version of the
    component has it. *)
Definition handlePause (t : TimerState) (now : Z) : TimerState :=
  if isPaused t then resumeTimer t now else pauseTimer t.

End TimerView.

Import FaceDetection TimerContext TimerView.

(** ** The interval callback and the bindings it holds

    [startDetection] creates the 150ms interval once per session; a second
    call returns at [isDetectingRef.current]. The callback is a closure of
    the render whose [startDetection] ran: for as long as the interval
    lives, the state variables it mentions ([lastDetectionTime],
    [consecutiveDrowsyFrames], [earHistory], [attentionHistory] and,
    through [detectBlink], [isEyeClosed], [lastBlinkTime] and
    [blinkTimestamps]) have that render's values, and [onFaceDetected] and
    [onFaceNotDetected] are that render's functions. A setter writes the
    current state; a setter given a function ([prev => ...]) reads the
    current value; a ref is read and written in place.

    In the definitions below [held] is the state of the render the closure
    comes from and [cur] the state the setters write. With [held] and [cur]
    the same state they are the definitions of the modules above. *)

Module Closure.

(** [detectBlink] called through the interval's closure. Only
    [setBlinkTimestamps] is given a function of the current value. *)
Definition heldDetectBlink (held cur : BlinkState) (ear : float)
    (currentTime : Z) : BlinkState * Z :=
  let cur' :=
    if (ear <? BLINK_THRESHOLD)%float && negb (isEyeClosed held) then
      {| blinkTimestamps := blinkTimestamps cur;
         isEyeClosed := true;
         lastBlinkTime := currentTime |}
    else if (BLINK_THRESHOLD <=? ear)%float && isEyeClosed held then
      let blinkDuration := currentTime - lastBlinkTime held in
      {| blinkTimestamps :=
           if (MIN_BLINK_DURATION <=? blinkDuration)
              && (blinkDuration <=? MAX_BLINK_DURATION)
           then List.filter (withinLastMinute currentTime)
                            (blinkTimestamps cur ++ [currentTime])
           else blinkTimestamps cur;
         isEyeClosed := false;
         lastBlinkTime := lastBlinkTime cur |}
    else cur in
  let recentBlinks :=
    List.filter (withinLastMinute currentTime) (blinkTimestamps held) in
  (cur', Z.of_nat (length recentBlinks)).

Section HeldLoop.
Variable Math_atan2 : float -> float -> float.
Variable Math_atan : float -> float.
Variable Math_round : float -> Z.

(** The [if (detection)] branch. [setConsecutiveDrowsyFrames] is given
    [prev => prev + 1]; the histories are built from the held arrays and
    [assessFatigueLevel] is passed the held counter. *)
Definition heldFaceBranch (held cur : DetectionState)
    (desc : FaceDescription) (now : Z)
    : DetectionState * option FaceAnalysisResult :=
  let seen :=
    {| isDetecting := isDetecting cur;
       detectionInterval := detectionInterval cur;
       animationFrame := animationFrame cur;
       lastDetectionTime := now;
       frameCount := frameCount cur;
       lastFullDetections := [desc];
       consecutiveDrowsyFrames := consecutiveDrowsyFrames cur;
       earHistory := earHistory cur; attentionHistory := attentionHistory cur;
       blink := blink cur |} in
  match estimateHeadPose Math_atan2 Math_atan (landmarks desc) with
  | None => (seen, None)
  | Some pose =>
    let ear :=
      ((computeAdvancedEAR (getLeftEye (landmarks desc))
        + computeAdvancedEAR (getRightEye (landmarks desc))) / 2)%float in
    let mar := computeMAR (getMouth (landmarks desc)) in
    match advancedGazeEstimation (landmarks desc) with
    | None => (seen, None)
    | Some gaze =>
      let emotion := emotionOf desc in
      let '(blink', blinkRate) :=
        heldDetectBlink (blink held) (blink cur) ear now in
      let '(isDrowsyFromBlinks, _) := assessDrowsinessFromBlinks blinkRate in
      let isDrowsyFromEyes := (ear <? 0.20)%float in
      let isDrowsyFromMouth := (0.4 <? mar)%float in
      let isDrowsyFromHead := (25 <? PrimFloat.abs (pitch pose))%float in
      let isDrowsy :=
        isDrowsyFromEyes || isDrowsyFromMouth || isDrowsyFromHead
        || isDrowsyFromBlinks in
      let attentionScore :=
        calculateAttentionScore ear mar pose gaze blinkRate in
      let fatigueLevel :=
        assessFatigueLevel attentionScore ear (consecutiveDrowsyFrames held) in
      ({| isDetecting := isDetecting cur;
          detectionInterval := detectionInterval cur;
          animationFrame := animationFrame cur;
          lastDetectionTime := now;
          frameCount := frameCount cur;
          lastFullDetections := [desc];
          consecutiveDrowsyFrames :=
            if isDrowsy then consecutiveDrowsyFrames cur + 1 else 0;
          earHistory := slice_last 30 (earHistory held ++ [ear]);
          attentionHistory :=
            slice_last 60 (attentionHistory held ++ [attentionScore]);
          blink := blink' |},
       Some {| isDrowsy := isDrowsy;
               isAttentive := 70 <? attentionScore;
               emotion := emotion;
               ear := ear;
               mar := mar;
               gazeDirection := gaze;
               headPose := pose;
               blinkRate := blinkRate;
               attentionScore := attentionScore;
               fatigueLevel := fatigueLevel;
               confidence := Math_round (detectionScore desc * 100)%float |})
    end
  end.

(** The [else] branch: the test reads the held [lastDetectionTime]. *)
Definition heldNoFaceBranch (held cur : DetectionState) (now : Z)
    : DetectionState * bool :=
  let fire := 5000 <? now - lastDetectionTime held in
  ({| isDetecting := isDetecting cur;
      detectionInterval := detectionInterval cur;
      animationFrame := animationFrame cur;
      lastDetectionTime := if fire then now else lastDetectionTime cur;
      frameCount := frameCount cur;
      lastFullDetections := [];
      consecutiveDrowsyFrames := consecutiveDrowsyFrames cur;
      earHistory := earHistory cur; attentionHistory := attentionHistory cur;
      blink := blink cur |},
   fire).

(** One tick of the interval. The guard reads [isDetectingRef.current]. *)
Definition intervalTick (held cur : DetectionState) (videoReady : bool)
    (outcome : DetectorOutcome) (now : Z) : DetectionState * option Callback :=
  if videoReady && isDetecting cur then
    let cur := countFrame cur in
    match outcome with
    | DetectorThrows => (cur, None)
    | Detected (Some desc) =>
        let '(cur', result) := heldFaceBranch held cur desc now in
        (cur', FaceDetected <$> result)
    | Detected None =>
        let '(cur', fire) := heldNoFaceBranch held cur now in
        (cur', if fire then Some FaceNotDetected else None)
    end
  else (cur, None).

(** The ticks of one interval, the video ready at each: the state they
    leave and the callbacks they call, each with the time of its tick. *)
Fixpoint session (held cur : DetectionState)
    (ticks : list (DetectorOutcome * Z))
    : DetectionState * list (Z * Callback) :=
  match ticks with
  | [] => (cur, [])
  | (outcome, now) :: rest =>
      let '(cur', cb) := intervalTick held cur true outcome now in
      let '(final, calls) := session held cur' rest in
      (final,
       match cb with
       | Some c => (now, c) :: calls
       | None => calls
       end)
  end.

End HeldLoop.

(** The provider's [pauseTimer] and [resumeTimer] as a held callback calls
    them: the functions of the render the callback comes from. *)
Definition heldPauseTimer (held cur : TimerState) : TimerState :=
  if isActive held && negb (isPaused held) then
    {| activeTask := activeTask cur; isActive := isActive cur;
       isPaused := true;
       elapsedTime := elapsedTime cur;
       startTime := startTime cur; pausedTime := pausedTime cur;
       lastElapsedTime := elapsedTime held;
       taskTimes := taskTimes cur;
       stored_task_times := stored_task_times cur;
       stored_timer_state := stored_timer_state cur |}
  else cur.

Definition heldResumeTimer (held cur : TimerState) (now : Z) : TimerState :=
  if isPaused held then
    {| activeTask := activeTask cur; isActive := isActive cur;
       isPaused := false;
       elapsedTime := elapsedTime cur;
       startTime := Some (now - lastElapsedTime held);
       pausedTime := pausedTime cur;
       lastElapsedTime := lastElapsedTime cur;
       taskTimes := taskTimes cur;
       stored_task_times := stored_task_times cur;
       stored_timer_state := stored_timer_state cur |}
  else cur.

(** The two callbacks as the interval holds them: the flags they test
    are those of the held render ([hg], [ht]); what they set is the
    current gate and timer. *)
Definition heldOnFaceDetected (hg : GateState) (ht : TimerState)
    (g : GateState) (t : TimerState)
    (result : option FaceAnalysisResult) (now : Z) : GateState * TimerState :=
  match result with
  | None => (g, t)
  | Some r =>
    let g1 := setLastAnalysisResult g r in
    let '(g2, t2) :=
      if isWaitingForFace hg && negb (canStartTimer hg) then
        (if noStartTime (faceDetectedStartTime hg)
         then startFaceDetectionTimer g1 now else g1, t)
      else if isCameraMode hg && isActive ht && isPaused ht
              && (40 <? attentionScore r) then
        (g1, heldResumeTimer ht t now)
      else (g1, t) in
    if isCameraMode hg
       && (match fatigueLevel r with high => true | _ => false end
           || (attentionScore r <? 30))
       && isActive ht && negb (isPaused ht)
    then (g2, heldPauseTimer ht t2)
    else (g2, t2)
  end.

Definition heldOnFaceNotDetected (hg : GateState) (ht : TimerState)
    (g : GateState) (t : TimerState) : GateState * TimerState :=
  let g' :=
    {| isCameraMode := isCameraMode g; isWaitingForFace := isWaitingForFace g;
       canStartTimer := false;
       faceDetectedStartTime := None;
       faceDetectionTimeout := false;
       lastAnalysisResult := lastAnalysisResult g |} in
  if negb (isActive ht) then (g', t)
  else if isCameraMode hg && isActive ht && negb (isPaused ht)
          && bool_decide (is_Some (activeTask ht))
  then (g', heldPauseTimer ht t)
  else (g', t).

Definition heldDeliver (cb : option Callback) (held : App)
    (g : GateState) (t : TimerState) (now : Z) : GateState * TimerState :=
  match cb with
  | None => (g, t)
  | Some (FaceDetected r) =>
      heldOnFaceDetected (gate held) (timer held) g t (Some r) now
  | Some FaceNotDetected =>
      heldOnFaceNotDetected (gate held) (timer held) g t
  end.

Section HeldHost.
Variable Math_atan2 : float -> float -> float.
Variable Math_atan : float -> float.
Variable Math_round : float -> Z.

(** One tick of the interval with its callback delivered. *)
Definition intervalSample (held cur : App) (videoReady : bool)
    (outcome : DetectorOutcome) (now : Z) : App :=
  let '(d, cb) :=
    intervalTick Math_atan2 Math_atan Math_round
                 (detection held) (detection cur) videoReady outcome now in
  let '(g, t) := heldDeliver cb held (gate cur) (timer cur) now in
  {| detection := d; gate := g; timer := t |}.
End HeldHost.

End Closure.

Import Closure.

(** ** Deductions, sample faces and sample states *)

(** A blink duration the tracker accepts. *)
Definition validDuration (d : Z) : bool :=
  (MIN_BLINK_DURATION <=? d) && (d <=? MAX_BLINK_DURATION).

(** The five deductions of [calculateAttentionScore], one per signal. *)
Definition earDeduction (ear : float) : Z :=
  if (ear <? 0.15)%float then 40
  else if (ear <? 0.20)%float then 25
  else if (ear <? 0.25)%float then 10
  else 0.

Definition marDeduction (mar : float) : Z :=
  if (0.7 <? mar)%float then 30
  else if (0.5 <? mar)%float then 15
  else 0.

Definition headDeduction (headPose : HeadPose) : Z :=
  let totalHeadMovement :=
    (PrimFloat.abs (yaw headPose) + PrimFloat.abs (pitch headPose)
     + PrimFloat.abs (roll headPose))%float in
  if (45 <? totalHeadMovement)%float then 25
  else if (25 <? totalHeadMovement)%float then 15
  else 0.

Definition gazeDeduction (gazeDirection : string) : Z :=
  if String.eqb gazeDirection "center" then 0 else 20.

Definition blinkDeduction (blinkRate : Z) : Z :=
  if blinkRate <? 8 then 35
  else if blinkRate <? 12 then 20
  else if 35 <? blinkRate then 25
  else if 25 <? blinkRate then 10
  else 0.

(** A quiet NaN, as [0 / 0] gives it. *)
Definition NaN : float := (0 / 0)%float.

(** A tracker state with the eye closed since time 900. *)
Definition closedEye : BlinkState :=
  {| blinkTimestamps := []; isEyeClosed := true; lastBlinkTime := 900 |}.

(** A six-point eye contour, three units wide and two units high. *)
Definition sampleEye : list Point :=
  [ {| x := 0; y := 0 |}; {| x := 1; y := 1 |}; {| x := 2; y := 1 |};
    {| x := 3; y := 0 |}; {| x := 2; y := -1 |}; {| x := 1; y := -1 |} ]%float.

(** A face with both eyes open and the mouth shut. *)
Definition sampleFace : FaceDescription :=
  {| landmarks :=
       {| getNose := repeat {| x := 5; y := 4 |}%float 9;
          getJawOutline := repeat {| x := 5; y := 9 |}%float 17;
          getLeftEye := sampleEye;
          getRightEye :=
            List.map (fun p => {| x := (x p + 7)%float; y := y p |}) sampleEye;
          getMouth :=
            repeat {| x := 5; y := 7 |}%float 12
            ++ [ {| x := 3; y := 7 |}; {| x := 4; y := 7 |};
                 {| x := 5; y := 7 |}; {| x := 6; y := 7 |};
                 {| x := 7; y := 7 |}; {| x := 6; y := 7 |};
                 {| x := 5; y := 7 |}; {| x := 4; y := 7 |} ]%float |};
     topExpression := Some "neutral";
     detectionScore := 0.9%float |}.

(** The landmarks the analysis dereferences are there: the nose tip
    [nose[3]], the eye corners [leftEye[0]] and [rightEye[3]], the mouth
    corners [mouth[0]] and [mouth[6]]. The 68-point model always has them. *)
Definition completeLandmarks (lm : Landmarks) : Prop :=
  (4 <= length (getNose lm))%nat
  /\ (1 <= length (getLeftEye lm))%nat
  /\ (4 <= length (getRightEye lm))%nat
  /\ (7 <= length (getMouth lm))%nat.

(** The EAR of a frame: the mean of the two eyes' ratios. *)
Definition meanEAR (desc : FaceDescription) : float :=
  ((computeAdvancedEAR (getLeftEye (landmarks desc))
    + computeAdvancedEAR (getRightEye (landmarks desc))) / 2)%float.


(** The hook detecting since time 0. *)
Definition detectingSince0 : DetectionState :=
  startDetection (initialDetectionState 0) 0.

(** The task "Study" and a timer that has run on it for 120000ms. *)
Definition study : Task :=
  {| id := "study"; title := "Study"; icon := None;
     group_id := "g1"; color := None |}.

Definition studyStored : TimerState :=
  {| activeTask := None; isActive := false; isPaused := false;
     elapsedTime := 0; startTime := None; pausedTime := 0;
     lastElapsedTime := 0;
     taskTimes := {[ "study" := 120000 ]};
     stored_task_times := Some {[ "study" := 120000 ]};
     stored_timer_state := None |}.

(** "Study" running since wall-clock time 1000000, 123000ms on the clock. *)
Definition studyRunning : TimerState :=
  tick (startTimer studyStored study 1000000) 1003000.

(** Constant stand-ins for the host's [Math.atan2], [Math.atan] and
    [Math.round], for running the loop on concrete frames. *)
Definition constAtan2 : float -> float -> float := fun _ _ => 0%float.
Definition constAtan : float -> float := fun _ => 0%float.
Definition constRound : float -> Z := fun _ => 90.

(** The flags of the timer fit together: paused only while active, and a
    running timer has a start time. *)
Definition timerFlagsOk (s : TimerState) : Prop :=
  (isPaused s = true -> isActive s = true)
  /\ (phase s = Running -> is_Some (startTime s)).

(** The levels of fatigue in order. *)
Definition fatigueRank (f : FatigueLevel) : Z :=
  match f with low => 0 | medium => 1 | high => 2 end.

(** The five values [advancedGazeEstimation] can return. *)
Definition gazeNames : list string := ["center"; "left"; "right"; "up"; "down"].

(** A binary64 value that is NaN. *)
Definition isNaN (f : float) : Prop := Prim2SF f = S754_nan.




Definition confirmedGate : GateState :=
  {| isCameraMode := true; isWaitingForFace := true;
     canStartTimer := true; faceDetectedStartTime := Some 1000;
     faceDetectionTimeout := false; lastAnalysisResult := None |}.

(** A six-point eye contour nearly shut: three units wide, 0.2 high. *)
Definition shutEye : list Point :=
  [ {| x := 0; y := 0 |}; {| x := 1; y := 0.1 |}; {| x := 2; y := 0.1 |};
    {| x := 3; y := 0 |}; {| x := 2; y := -0.1 |}; {| x := 1; y := -0.1 |} ]%float.

(** [sampleFace] with both eyes shut. *)
Definition closedFace : FaceDescription :=
  {| landmarks :=
       {| getNose := getNose (landmarks sampleFace);
          getJawOutline := getJawOutline (landmarks sampleFace);
          getLeftEye := shutEye;
          getRightEye :=
            List.map (fun p => {| x := (x p + 7)%float; y := y p |}) shutEye;
          getMouth := getMouth (landmarks sampleFace) |};
     topExpression := Some "neutral";
     detectionScore := 0.9%float |}.

(** Eyes open at 1150, shut at 1300, open again at 1500: a drop-recover
    cycle of 200ms. *)
Definition blinkCycle200 : list (DetectorOutcome * Z) :=
  [ (Detected (Some sampleFace), 1150);
    (Detected (Some closedFace), 1300);
    (Detected (Some sampleFace), 1500) ].

(** No face at any of the given times. *)
Definition absentAt (times : list Z) : list (DetectorOutcome * Z) :=
  List.map (fun t => (Detected None, t)) times.


(** [sampleFace] in view at 1150, 1300, ..., 5650. *)
Definition presenceUntil5650 : list (DetectorOutcome * Z) :=
  List.map (fun k => (Detected (Some sampleFace), 1150 + 150 * Z.of_nat k))
           (seq 0 31).

(** The render that starts the session at 1000: the hook mounted at 900,
    camera mode on, the gate waiting for a face, no task running. *)
Definition mountedAt900 : App :=
  {| detection := initialDetectionState 900;
     gate :=
       {| isCameraMode := true; isWaitingForFace := true;
          canStartTimer := false; faceDetectedStartTime := None;
          faceDetectionTimeout := false; lastAnalysisResult := None |};
     timer := initialTimerState |}.

(** That session after the face has been in view from 1150 to 5650: the
    hook as the ticks left it, the confirmation started at 1150 and its
    timeout pending. *)
Definition waitingSince1150 : App :=
  {| detection :=
       fst (session constAtan2 constAtan constRound
                    (detection mountedAt900)
                    (startDetection (detection mountedAt900) 1000)
                    presenceUntil5650);
     gate :=
       {| isCameraMode := true; isWaitingForFace := true;
          canStartTimer := false;
          faceDetectedStartTime := Some 1150;
          faceDetectionTimeout := true;
          lastAnalysisResult := None |};
     timer := initialTimerState |}.

(** The provider's 10ms interval from the start of "Study" at 1000000:
    ticks at 1000005, 1000015, ..., 1002995. *)
Definition ticksUntil2995 : list Z :=
  List.map (fun k => 1000005 + 10 * Z.of_nat k) (seq 0 300).

(** ** Order facts on binary64 values *)
Section FloatOrder.

Lemma compare_cont_Eq_swap (p q : positive) :
  Pos.compare_cont Eq q p = CompOpp (Pos.compare_cont Eq p q).
Proof. exact (Pos.compare_antisym p q). Qed.

Lemma SFcompare_swap (a b : spec_float) :
  SFcompare b a = option_map CompOpp (SFcompare a b).
Proof.
  destruct a as [sa|sa| |sa ma ea], b as [sb|sb| |sb mb eb]; simpl;
    try reflexivity;
    try (destruct sa; reflexivity); try (destruct sb; reflexivity);
    try (destruct sa, sb; reflexivity).
  destruct sa, sb; try reflexivity; f_equal;
    rewrite (Z.compare_antisym ea eb);
    destruct (ea ?= eb) eqn:E; simpl; try reflexivity;
    rewrite (compare_cont_Eq_swap ma mb); try reflexivity.
Qed.

Lemma SFlt_le_trans (a b c : spec_float) :
  SFltb a b = true -> SFleb b c = true -> SFltb a c = true.
Proof.
  unfold SFltb, SFleb.
  destruct a as [sa|sa| |sa ma ea], b as [sb|sb| |sb mb eb],
           c as [sc|sc| |sc mc ec];
    simpl; try discriminate; try reflexivity;
    try (destruct sa; simpl; try discriminate; try reflexivity);
    try (destruct sb; simpl; try discriminate; try reflexivity);
    try (destruct sc; simpl; try discriminate; try reflexivity).
  all: change (Pos.compare_cont Eq) with Pos.compare.
  all: destruct (Z.compare_spec ea eb); destruct (Z.compare_spec eb ec);
       destruct (Z.compare_spec ea ec);
       try discriminate; try reflexivity; try lia; subst.
  all: destruct (Pos.compare_spec ma mb); destruct (Pos.compare_spec mb mc);
       destruct (Pos.compare_spec ma mc);
       simpl; try discriminate; try reflexivity; try lia.
Qed.

Lemma SFle_lt_trans (a b c : spec_float) :
  SFleb a b = true -> SFltb b c = true -> SFltb a c = true.
Proof.
  unfold SFltb, SFleb.
  destruct a as [sa|sa| |sa ma ea], b as [sb|sb| |sb mb eb],
           c as [sc|sc| |sc mc ec];
    simpl; try discriminate; try reflexivity;
    try (destruct sa; simpl; try discriminate; try reflexivity);
    try (destruct sb; simpl; try discriminate; try reflexivity);
    try (destruct sc; simpl; try discriminate; try reflexivity).
  all: change (Pos.compare_cont Eq) with Pos.compare.
  all: destruct (Z.compare_spec ea eb); destruct (Z.compare_spec eb ec);
       destruct (Z.compare_spec ea ec);
       try discriminate; try reflexivity; try lia; subst.
  all: destruct (Pos.compare_spec ma mb); destruct (Pos.compare_spec mb mc);
       destruct (Pos.compare_spec ma mc);
       simpl; try discriminate; try reflexivity; try lia.
Qed.

Lemma fle_lt_trans (a b c : float) :
  (a <=? b)%float = true -> (b <? c)%float = true -> (a <? c)%float = true.
Proof.
  rewrite !FloatAxioms.ltb_spec, FloatAxioms.leb_spec. apply SFle_lt_trans.
Qed.

Lemma flt_le (a b : float) :
  (a <? b)%float = true -> (a <=? b)%float = true.
Proof.
  rewrite FloatAxioms.ltb_spec, FloatAxioms.leb_spec. unfold SFltb, SFleb.
  destruct (SFcompare (Prim2SF a) (Prim2SF b)) as [[ | | ]|];
    congruence.
Qed.

(** [a < b] excludes [b <= a]. *)
Lemma flt_not_ge (a b : float) :
  (a <? b)%float = true -> (b <=? a)%float = false.
Proof.
  rewrite FloatAxioms.ltb_spec, FloatAxioms.leb_spec. unfold SFltb, SFleb.
  rewrite (SFcompare_swap (Prim2SF a) (Prim2SF b)).
  destruct (SFcompare (Prim2SF a) (Prim2SF b)) as [[ | | ]|];
    simpl; congruence.
Qed.

(** [b <= a] excludes [a < b]. *)
Lemma fle_not_lt (a b : float) :
  (b <=? a)%float = true -> (a <? b)%float = false.
Proof.
  intros H. destruct (a <? b)%float eqn:E; [|reflexivity].
  apply flt_not_ge in E. congruence.
Qed.

Lemma flt_le_trans (a b c : float) :
  (a <? b)%float = true -> (b <=? c)%float = true -> (a <? c)%float = true.
Proof. rewrite !FloatAxioms.ltb_spec, FloatAxioms.leb_spec. apply SFlt_le_trans. Qed.

Lemma SFcompare_None (a b : spec_float) :
  SFcompare a b = None -> a = S754_nan \/ b = S754_nan.
Proof.
  destruct a as [sa|sa| |sa ma ea], b as [sb|sb| |sb mb eb]; simpl; auto;
    discriminate.
Qed.

Lemma SFleb_not_nan_r (a b : spec_float) : SFleb a b = true -> b <> S754_nan.
Proof.
  unfold SFleb. intros H ->.
  destruct a; simpl in H; discriminate.
Qed.

Lemma SFleb_not_nan_l (a b : spec_float) : SFleb a b = true -> a <> S754_nan.
Proof. unfold SFleb. intros H ->. simpl in H. discriminate. Qed.

(** Two values that are not NaN are comparable; a value that compares
    with success to another one is not NaN. *)
Lemma f_comparable (lo a b hi : float) :
  (lo <=? a)%float = true -> (b <=? hi)%float = true ->
  (a <? b)%float = true \/ (b <=? a)%float = true.
Proof.
  rewrite FloatAxioms.ltb_spec, !FloatAxioms.leb_spec.
  intros Ha Hb.
  apply SFleb_not_nan_r in Ha. apply SFleb_not_nan_l in Hb.
  unfold SFltb, SFleb.
  rewrite (SFcompare_swap (Prim2SF a) (Prim2SF b)).
  destruct (SFcompare (Prim2SF a) (Prim2SF b)) as [[ | | ]|] eqn:E;
    simpl; auto.
  apply SFcompare_None in E. tauto.
Qed.

End FloatOrder.

(** ** The blink tracker *)
Section BlinkTracker.

Lemma withinLastMinute_now (t : Z) : withinLastMinute t t = true.
Proof. unfold withinLastMinute. apply Z.leb_le. lia. Qed.

Lemma filter_recent_snoc (t : Z) (l : list Z) :
  List.filter (withinLastMinute t) (l ++ [t])
  = List.filter (withinLastMinute t) l ++ [t].
Proof.
  rewrite List.filter_app. simpl. rewrite withinLastMinute_now. reflexivity.
Qed.

(** The eye closes: open before, EAR below the threshold. *)
Lemma detectBlink_closes (st : BlinkState) (e : float) (t : Z) :
  isEyeClosed st = false ->
  (e <? BLINK_THRESHOLD)%float = true ->
  fst (detectBlink st e t)
  = {| blinkTimestamps := blinkTimestamps st;
       isEyeClosed := true;
       lastBlinkTime := t |}.
Proof.
  intros Hopen Hlow. unfold detectBlink. rewrite Hlow, Hopen. reflexivity.
Qed.


(** The eye opens again: the duration decides. *)
Lemma detectBlink_opens (st : BlinkState) (e : float) (t : Z) :
  isEyeClosed st = true ->
  (BLINK_THRESHOLD <=? e)%float = true ->
  fst (detectBlink st e t)
  = {| blinkTimestamps :=
         if validDuration (t - lastBlinkTime st)
         then List.filter (withinLastMinute t) (blinkTimestamps st ++ [t])
         else blinkTimestamps st;
       isEyeClosed := false;
       lastBlinkTime := lastBlinkTime st |}.
Proof.
  intros Hclosed Hhigh. unfold detectBlink.
  rewrite Hclosed, Hhigh, (fle_not_lt _ _ Hhigh). reflexivity.
Qed.

End BlinkTracker.

(** ** The interval callback: held and current state *)
Section HeldClosure.
Variable Math_atan2 : float -> float -> float.
Variable Math_atan : float -> float.
Variable Math_round : float -> Z.

Local Abbreviation sampleStep := (sampleStep Math_atan2 Math_atan Math_round).
Local Abbreviation sample := (sample Math_atan2 Math_atan Math_round).
Local Abbreviation intervalTick :=
  (intervalTick Math_atan2 Math_atan Math_round).
Local Abbreviation intervalSample :=
  (intervalSample Math_atan2 Math_atan Math_round).
Local Abbreviation session := (session Math_atan2 Math_atan Math_round).

(** A call that reads the state it writes is the call of the modules. *)
Lemma heldDetectBlink_same (st : BlinkState) (e : float) (t : Z) :
  heldDetectBlink st st e t = detectBlink st e t.
Proof. reflexivity. Qed.

Lemma intervalTick_same (st : DetectionState) (videoReady : bool)
    (outcome : DetectorOutcome) (now : Z) :
  intervalTick st st videoReady outcome now
  = sampleStep st videoReady outcome now.
Proof.
  unfold FaceDetection.sampleStep, Closure.intervalTick.
  destruct (videoReady && isDetecting st); [|reflexivity].
  destruct outcome as [|[desc|]]; reflexivity.
Qed.

Lemma heldOnFaceDetected_same (g : GateState) (t : TimerState)
    (result : option FaceAnalysisResult) (now : Z) :
  heldOnFaceDetected g t g t result now = onFaceDetected g t result now.
Proof.
  destruct result as [r|]; [|reflexivity].
  unfold heldOnFaceDetected, onFaceDetected.
  destruct (isWaitingForFace g && negb (canStartTimer g)); [reflexivity|].
  destruct (isCameraMode g); simpl; [|reflexivity].
  destruct (isActive t) eqn:Ha; simpl; [|reflexivity].
  destruct (isPaused t) eqn:Hp; simpl.
  - rewrite !andb_false_r. reflexivity.
  - destruct (_ || _); simpl; [|reflexivity].
    unfold heldPauseTimer, pauseTimer. rewrite Ha, Hp. reflexivity.
Qed.

Lemma intervalSample_same (app : App) (videoReady : bool)
    (outcome : DetectorOutcome) (now : Z) :
  intervalSample app app videoReady outcome now
  = sample app videoReady outcome now.
Proof.
  unfold Closure.intervalSample, TimerView.sample.
  rewrite intervalTick_same.
  destruct (sampleStep (detection app) videoReady outcome now) as [d cb].
  destruct cb as [[r|]|]; [|reflexivity|reflexivity].
  unfold heldDeliver, deliver. cbv [gate timer].
  rewrite heldOnFaceDetected_same. reflexivity.
Qed.

End HeldClosure.

(** ** Blinks within a session *)
Section SessionBlinks.
Variable Math_atan2 : float -> float -> float.
Variable Math_atan : float -> float.
Variable Math_round : float -> Z.

Local Abbreviation intervalTick :=
  (intervalTick Math_atan2 Math_atan Math_round).
Local Abbreviation session := (session Math_atan2 Math_atan Math_round).

(** With the held eye flag open, a call through the closure can close the
    current flag but cannot reach the branch that appends to the log. *)
Lemma heldDetectBlink_open_keeps_log
    (held cur : BlinkState) (e : float) (t : Z) :
  isEyeClosed held = false ->
  blinkTimestamps (fst (heldDetectBlink held cur e t)) = blinkTimestamps cur.
Proof.
  intros Hopen. unfold heldDetectBlink. rewrite Hopen. simpl.
  rewrite andb_false_r.
  destruct ((e <? BLINK_THRESHOLD)%float && true); reflexivity.
Qed.

Lemma intervalTick_open_keeps_log
    (held cur : DetectionState) (videoReady : bool)
    (outcome : DetectorOutcome) (now : Z) :
  isEyeClosed (blink held) = false ->
  blinkTimestamps (blink (fst (intervalTick held cur videoReady outcome now)))
  = blinkTimestamps (blink cur).
Proof.
  intros Hopen. unfold Closure.intervalTick.
  destruct (videoReady && isDetecting cur); [|reflexivity].
  destruct outcome as [|[desc|]]; try reflexivity.
  unfold heldFaceBranch.
  destruct (estimateHeadPose _ _ _) as [pose|]; [|reflexivity].
  destruct (advancedGazeEstimation _) as [gaze|]; [|reflexivity].
  pose proof (heldDetectBlink_open_keeps_log
                (blink held) (blink (countFrame cur))
                ((computeAdvancedEAR (getLeftEye (landmarks desc))
                  + computeAdvancedEAR (getRightEye (landmarks desc))) / 2)%float
                now Hopen) as Hlog.
  destruct (heldDetectBlink _ _ _ _) as [blink' rate].
  destruct (assessDrowsinessFromBlinks rate) as [drowsy status].
  simpl in *. exact Hlog.
Qed.

Lemma session_cons (held cur : DetectionState) (outcome : DetectorOutcome)
    (now : Z) (rest : list (DetectorOutcome * Z)) :
  fst (session held cur ((outcome, now) :: rest))
  = fst (session held (fst (intervalTick held cur true outcome now)) rest).
Proof.
  simpl. destruct (intervalTick held cur true outcome now) as [cur' cb].
  simpl. destruct (session held cur' rest). reflexivity.
Qed.

(** C1: the code does not do what the claim says. The interval keeps the
    [detectBlink] of the render that created it. When that render has
    the eye open, as it is on mount and after the reset of
    [stopDetection], no tick of the session records a blink, whatever the
    frames show: the blink log is at the end what it was at the start.
    The closing of the eye is written to the current state, which the
    held [detectBlink] does not read, so the reopening branch with its
    duration test is never taken and a 200ms drop-recover cycle leaves
    the log as it was. *)
Theorem session_from_open_eye_records_no_blink
    (held cur : DetectionState) (ticks : list (DetectorOutcome * Z)) :
  isEyeClosed (blink held) = false ->
  blinkTimestamps (blink (fst (session held cur ticks)))
  = blinkTimestamps (blink cur).
Proof.
  intros Hopen. revert cur.
  induction ticks as [|[outcome now] rest IH]; intros cur.
  - reflexivity.
  - rewrite session_cons, IH.
    apply intervalTick_open_keeps_log. exact Hopen.
Qed.

End SessionBlinks.

(** ** The attention score *)
Section AttentionScore.

(** The score is 100 less the five deductions, cut to [0, 100]. *)
Lemma calculateAttentionScore_deductions
    (e m : float) (hp : HeadPose) (gaze : string) (rate : Z) :
  calculateAttentionScore e m hp gaze rate
  = Z.max 0 (Z.min 100 (100 - earDeduction e - marDeduction m
                        - headDeduction hp - gazeDeduction gaze
                        - blinkDeduction rate)).
Proof.
  unfold calculateAttentionScore, earDeduction, marDeduction, headDeduction,
    gazeDeduction, blinkDeduction.
  cbv zeta.
  generalize (PrimFloat.abs (yaw hp) + PrimFloat.abs (pitch hp)
              + PrimFloat.abs (roll hp))%float.
  intros total.
  destruct (e <? 0.15)%float, (e <? 0.20)%float, (e <? 0.25)%float;
  destruct (0.7 <? m)%float, (0.5 <? m)%float;
  destruct (45 <? total)%float, (25 <? total)%float;
  destruct (String.eqb gaze "center");
  destruct (rate <? 8), (rate <? 12), (35 <? rate), (25 <? rate);
  reflexivity.
Qed.

Lemma marDeduction_monotone (m1 m2 : float) :
  (m1 <=? m2)%float = true -> marDeduction m1 <= marDeduction m2.
Proof.
  intros Hle. unfold marDeduction.
  destruct (0.7 <? m1)%float eqn:H7.
  - rewrite (flt_le_trans _ _ _ H7 Hle). lia.
  - destruct (0.5 <? m1)%float eqn:H5.
    + rewrite (flt_le_trans _ _ _ H5 Hle).
      destruct (0.7 <? m2)%float; lia.
    + destruct (0.7 <? m2)%float, (0.5 <? m2)%float; lia.
Qed.

(** C7. The attention score lies in [0, 100] for all inputs, and for
    fixed EAR, head pose, gaze and blink rate it does not increase when
    MAR increases within the region MAR > 0.5. *)
Theorem attentionScore_range_and_mar_monotone
    (e : float) (hp : HeadPose) (gaze : string) (rate : Z) :
  (forall m : float,
      0 <= calculateAttentionScore e m hp gaze rate <= 100)
  /\ (forall m1 m2 : float,
        (0.5 <? m1)%float = true ->
        (m1 <=? m2)%float = true ->
        calculateAttentionScore e m2 hp gaze rate
        <= calculateAttentionScore e m1 hp gaze rate).
Proof.
  split.
  - intros m. rewrite calculateAttentionScore_deductions. lia.
  - intros m1 m2 _ Hle. rewrite !calculateAttentionScore_deductions.
    pose proof (marDeduction_monotone m1 m2 Hle). lia.
Qed.

End AttentionScore.

(** ** The blink rate and malformed EAR values *)
Section BlinkRate.

Lemma detectBlink_rate (st : BlinkState) (e : float) (now : Z) :
  snd (detectBlink st e now)
  = Z.of_nat (length (List.filter (withinLastMinute now) (blinkTimestamps st))).
Proof. reflexivity. Qed.

Lemma filter_all_recent (now : Z) (l : list Z) :
  Forall (fun t => now - t <= 60000) l ->
  List.filter (withinLastMinute now) l = l.
Proof.
  induction 1 as [|t l Ht _ IH]; simpl.
  - reflexivity.
  - unfold withinLastMinute at 1.
    destruct (Z.leb_spec (now - t) 60000); [|lia].
    rewrite IH. reflexivity.
Qed.

(** C4. The rate a call returns at time [now] is the number of logged
    timestamps [t] with [now - t <= 60000]; the log holding earlier
    readings of the clock ([t <= now]), that is the number of logged
    timestamps in the window from [now - 60000] to [now]. When all [N]
    logged timestamps are within the last 60000ms the rate is [N]; with
    one blink logged at [now - 61000] and one at [now - 1000] it is 1. *)
Theorem blinkRate_counts_last_60000ms
    (st : BlinkState) (e : float) (now : Z) :
  snd (detectBlink st e now)
  = Z.of_nat (length (List.filter (fun t => now - t <=? 60000)
                                  (blinkTimestamps st)))
  /\ (Forall (fun t => t <= now) (blinkTimestamps st) ->
      snd (detectBlink st e now)
      = Z.of_nat (length (List.filter
                            (fun t => (now - 60000 <=? t) && (t <=? now))
                            (blinkTimestamps st))))
  /\ (Forall (fun t => now - t <= 60000) (blinkTimestamps st) ->
      snd (detectBlink st e now) = Z.of_nat (length (blinkTimestamps st)))
  /\ (blinkTimestamps st = [now - 61000; now - 1000] ->
      snd (detectBlink st e now) = 1).
Proof.
  split; [reflexivity|]. split; [|split].
  - intros Hpast. rewrite detectBlink_rate. do 2 f_equal.
    induction Hpast as [|t l Ht _ IH]; simpl; [reflexivity|].
    rewrite IH. unfold withinLastMinute at 1.
    destruct (Z.leb_spec (now - t) 60000), (Z.leb_spec (now - 60000) t),
             (Z.leb_spec t now); simpl; try reflexivity; lia.
  - intros Hall. rewrite detectBlink_rate, filter_all_recent by assumption.
    reflexivity.
  - intros Hlog. rewrite detectBlink_rate, Hlog. simpl.
    unfold withinLastMinute.
    destruct (Z.leb_spec (now - (now - 61000)) 60000); [lia|].
    destruct (Z.leb_spec (now - (now - 1000)) 60000); [|lia].
    reflexivity.
Qed.

(** A value above 1 is read as an open eye, as 1 is. *)
Lemma detectBlink_above_one (st : BlinkState) (e : float) (now : Z) :
  (1 <? e)%float = true -> detectBlink st e now = detectBlink st 1 now.
Proof.
  intros H1.
  assert (Hlt : (BLINK_THRESHOLD <? e)%float = true)
    by (apply (fle_lt_trans _ 1%float); [reflexivity | exact H1]).
  unfold detectBlink.
  rewrite (flt_le _ _ Hlt), (fle_not_lt _ _ (flt_le _ _ Hlt)).
  reflexivity.
Qed.

(** A value below 0 is read as a closed eye, as 0 is. *)
Lemma detectBlink_below_zero (st : BlinkState) (e : float) (now : Z) :
  (e <? 0)%float = true -> detectBlink st e now = detectBlink st 0 now.
Proof.
  intros H0.
  assert (Hlt : (e <? BLINK_THRESHOLD)%float = true)
    by (apply (flt_le_trans _ 0%float); [exact H0 | reflexivity]).
  unfold detectBlink.
  rewrite Hlt, (flt_not_ge _ _ Hlt).
  reflexivity.
Qed.

(** C8, as the code has it. [detectBlink] is defined for every EAR
    value and compares it with the threshold as it comes, without
    clamping: the rate returned does not depend on the EAR; a value that
    is neither below nor at-or-above the threshold (NaN) leaves the
    tracker state as it was; a value above 1 is handled as 1 and a value
    below 0 as 0. *)
Theorem detectBlink_total_unclamped
    (st : BlinkState) (e : float) (now : Z) :
  snd (detectBlink st e now)
  = Z.of_nat (length (List.filter (withinLastMinute now) (blinkTimestamps st)))
  /\ fst (detectBlink st NaN now) = st
  /\ ((e <? BLINK_THRESHOLD)%float = false ->
      (BLINK_THRESHOLD <=? e)%float = false ->
      fst (detectBlink st e now) = st)
  /\ ((1 <? e)%float = true -> detectBlink st e now = detectBlink st 1 now)
  /\ ((e <? 0)%float = true -> detectBlink st e now = detectBlink st 0 now).
Proof.
  split; [reflexivity|]. split; [reflexivity|]. split.
  - intros Hlt Hge. unfold detectBlink. rewrite Hlt, Hge. reflexivity.
  - split; [apply detectBlink_above_one | apply detectBlink_below_zero].
Qed.

End BlinkRate.

Section MalformedEAR.

(** C8 fails as stated. On NaN the tracker neither closes an open eye
    nor opens a closed one, while every value of the valid range [0, 1]
    does one or the other: NaN was not replaced by a value of the range
    before use. *)
Lemma detectBlink_NaN_not_clamped :
  isEyeClosed (fst (detectBlink closedEye NaN 1000)) = true
  /\ isEyeClosed (fst (detectBlink initialBlinkState NaN 1000)) = false
  /\ (forall v : float,
        (0 <=? v)%float = true -> (v <=? 1)%float = true ->
        isEyeClosed (fst (detectBlink closedEye v 1000)) = false
        \/ isEyeClosed (fst (detectBlink initialBlinkState v 1000)) = true).
Proof.
  split; [reflexivity|]. split; [reflexivity|].
  intros v Hlo _.
  destruct (f_comparable 0%float v BLINK_THRESHOLD 1%float Hlo eq_refl)
    as [Hlt|Hge].
  - right.
    rewrite (detectBlink_closes initialBlinkState v 1000 eq_refl Hlt).
    reflexivity.
  - left.
    rewrite (detectBlink_opens closedEye v 1000 eq_refl Hge).
    reflexivity.
Qed.

End MalformedEAR.

(** ** One analysed frame *)
Section FrameAnalysis.
Variable Math_atan2 : float -> float -> float.
Variable Math_atan : float -> float.
Variable Math_round : float -> Z.

Local Abbreviation faceBranch := (faceBranch Math_atan2 Math_atan Math_round).
Local Abbreviation sampleStep := (sampleStep Math_atan2 Math_atan Math_round).

Lemma faceBranch_result
    (st st' : DetectionState) (desc : FaceDescription) (now : Z)
    (r : FaceAnalysisResult) :
  faceBranch st desc now = (st', Some r) ->
  ear r = meanEAR desc
  /\ blinkRate r = snd (detectBlink (blink st) (meanEAR desc) now)
  /\ blink st' = fst (detectBlink (blink st) (meanEAR desc) now)
  /\ attentionScore r
     = calculateAttentionScore (meanEAR desc) (mar r) (headPose r)
                               (gazeDirection r) (blinkRate r)
  /\ fatigueLevel r
     = assessFatigueLevel (attentionScore r) (meanEAR desc)
                          (consecutiveDrowsyFrames st).
Proof.
  unfold FaceDetection.faceBranch. fold (meanEAR desc).
  destruct (estimateHeadPose _ _ _) as [pose|]; [|discriminate].
  destruct (advancedGazeEstimation _) as [gaze|]; [|discriminate].
  destruct (detectBlink (blink st) (meanEAR desc) now) as [b rate] eqn:Hb.
  destruct (assessDrowsinessFromBlinks rate) as [drowsy status].
  intros H. injection H as <- <-. simpl. repeat split; reflexivity.
Qed.

(** A tick that hands a result to [onFaceDetected]: what the result and
    the next state hold. *)
Lemma sampleStep_face_result
    (st st' : DetectionState) (videoReady : bool) (desc : FaceDescription)
    (now : Z) (r : FaceAnalysisResult) :
  sampleStep st videoReady (Detected (Some desc)) now
    = (st', Some (FaceDetected r)) ->
  ear r = meanEAR desc
  /\ blinkRate r = snd (detectBlink (blink st) (ear r) now)
  /\ blink st' = fst (detectBlink (blink st) (ear r) now)
  /\ attentionScore r
     = calculateAttentionScore (ear r) (mar r) (headPose r)
                               (gazeDirection r) (blinkRate r)
  /\ fatigueLevel r
     = assessFatigueLevel (attentionScore r) (ear r)
                          (consecutiveDrowsyFrames st).
Proof.
  unfold FaceDetection.sampleStep.
  destruct (videoReady && isDetecting st); [|discriminate].
  destruct (FaceDetection.faceBranch _ _ _ (countFrame st) desc now)
    as [st1 [r1|]] eqn:Hface; [|discriminate].
  intros H. injection H as <- <-.
  apply faceBranch_result in Hface. simpl in Hface.
  destruct Hface as (He & Hrate & Hblink & Hscore & Hfatigue).
  rewrite He. auto.
Qed.

Lemma estimateHeadPose_complete (lm : Landmarks) :
  completeLandmarks lm ->
  is_Some (estimateHeadPose Math_atan2 Math_atan lm).
Proof.
  intros (Hnose & Hleft & Hright & Hmouth). unfold estimateHeadPose.
  destruct (lookup_lt_is_Some_2 (getNose lm) 3) as [p1 ->]; [lia|].
  destruct (lookup_lt_is_Some_2 (getLeftEye lm) 0) as [p2 ->]; [lia|].
  destruct (lookup_lt_is_Some_2 (getRightEye lm) 3) as [p3 ->]; [lia|].
  destruct (lookup_lt_is_Some_2 (getMouth lm) 0) as [p4 ->]; [lia|].
  destruct (lookup_lt_is_Some_2 (getMouth lm) 6) as [p5 ->]; [lia|].
  simpl. eauto.
Qed.

Lemma advancedGazeEstimation_complete (lm : Landmarks) :
  completeLandmarks lm -> is_Some (advancedGazeEstimation lm).
Proof.
  intros (Hnose & _). unfold advancedGazeEstimation.
  destruct (lookup_lt_is_Some_2 (getNose lm) 3) as [p1 ->]; [lia|].
  simpl.
  repeat match goal with
         | |- context [if ?c then _ else _] => destruct c
         end; eauto.
Qed.

Lemma faceBranch_complete
    (st : DetectionState) (desc : FaceDescription) (now : Z) :
  completeLandmarks (landmarks desc) ->
  is_Some (snd (faceBranch st desc now)).
Proof.
  intros Hlm. unfold FaceDetection.faceBranch.
  destruct (estimateHeadPose_complete _ Hlm) as [pose ->].
  destruct (advancedGazeEstimation_complete _ Hlm) as [gaze ->].
  destruct (detectBlink _ _ _) as [b rate].
  destruct (assessDrowsinessFromBlinks rate) as [drowsy status].
  simpl. eauto.
Qed.

(** C10. Every tick of the running loop on a detected face (with the
    landmarks the analysis dereferences in place) hands a result to
    [onFaceDetected], and the [ear] of that result, the EAR given to the
    blink tracker (for the returned rate and for the tracker's next
    state), to the attention score and to the fatigue level is the
    arithmetic mean of [computeAdvancedEAR] of the left-eye contour and
    [computeAdvancedEAR] of the right-eye contour. *)
Theorem frame_ear_is_mean_of_left_and_right
    (st : DetectionState) (desc : FaceDescription) (now : Z) :
  isDetecting st = true ->
  completeLandmarks (landmarks desc) ->
  exists (st' : DetectionState) (r : FaceAnalysisResult),
    sampleStep st true (Detected (Some desc)) now
      = (st', Some (FaceDetected r))
    /\ ear r
       = ((computeAdvancedEAR (getLeftEye (landmarks desc))
           + computeAdvancedEAR (getRightEye (landmarks desc))) / 2)%float
    /\ blinkRate r = snd (detectBlink (blink st) (ear r) now)
    /\ blink st' = fst (detectBlink (blink st) (ear r) now)
    /\ attentionScore r
       = calculateAttentionScore (ear r) (mar r) (headPose r)
                                 (gazeDirection r) (blinkRate r)
    /\ fatigueLevel r
       = assessFatigueLevel (attentionScore r) (ear r)
                            (consecutiveDrowsyFrames st).
Proof.
  intros Hdet Hlm.
  destruct (faceBranch_complete (countFrame st) desc now Hlm) as [r Hr].
  destruct (faceBranch (countFrame st) desc now) as [st' res] eqn:Hface.
  simpl in Hr. subst res.
  assert (Hstep : sampleStep st true (Detected (Some desc)) now
                  = (st', Some (FaceDetected r))).
  { unfold FaceDetection.sampleStep. rewrite Hdet, Hface. reflexivity. }
  exists st', r. split; [exact Hstep|].
  exact (sampleStep_face_result st st' true desc now r Hstep).
Qed.

End FrameAnalysis.

(** ** Samples without a face *)
Section NoFace.
Variable Math_atan2 : float -> float -> float.
Variable Math_atan : float -> float.
Variable Math_round : float -> Z.

Local Abbreviation sampleStep := (sampleStep Math_atan2 Math_atan Math_round).
Local Abbreviation sample := (sample Math_atan2 Math_atan Math_round).

Lemma noFaceBranch_fires (st : DetectionState) (now : Z) :
  snd (noFaceBranch st now) = true <-> 5000 < now - lastDetectionTime st.
Proof. unfold noFaceBranch. simpl. apply Z.ltb_lt. Qed.

Lemma noFaceBranch_lastDetectionTime (st : DetectionState) (now : Z) :
  lastDetectionTime (fst (noFaceBranch st now))
  = if snd (noFaceBranch st now) then now else lastDetectionTime st.
Proof. reflexivity. Qed.

(** A tick of the running loop that finds no face is [noFaceBranch]
    after the frame was counted. *)
Lemma sampleStep_noFace (st : DetectionState) (now : Z) :
  isDetecting st = true ->
  sampleStep st true (Detected None) now
  = (fst (noFaceBranch (countFrame st) now),
     if snd (noFaceBranch (countFrame st) now)
     then Some FaceNotDetected else None).
Proof.
  intros Hdet. unfold FaceDetection.sampleStep. rewrite Hdet. reflexivity.
Qed.

(** C9. Stopping detection halts the sampling loop (no interval handle,
    not detecting: a further tick changes nothing), puts the blink
    tracker back to its initial state (empty log, eye open, last
    transition time 0) and the consecutive-drowsy-frame counter to 0,
    and leaves the timer state and the gate flags as they were. *)
Theorem stopDetection_resets_tracker_keeps_timer (app : App) :
  isDetecting (detection (stopDetection app)) = false
  /\ detectionInterval (detection (stopDetection app)) = false
  /\ (forall (videoReady : bool) (outcome : DetectorOutcome) (now : Z),
        sample (stopDetection app) videoReady outcome now = stopDetection app)
  /\ blink (detection (stopDetection app)) = initialBlinkState
  /\ blinkTimestamps (blink (detection (stopDetection app))) = []
  /\ isEyeClosed (blink (detection (stopDetection app))) = false
  /\ lastBlinkTime (blink (detection (stopDetection app))) = 0
  /\ consecutiveDrowsyFrames (detection (stopDetection app)) = 0
  /\ timer (stopDetection app) = timer app
  /\ gate (stopDetection app) = gate app.
Proof.
  repeat split.
  intros videoReady outcome now.
  unfold TimerView.sample, FaceDetection.sampleStep. simpl.
  rewrite andb_false_r. reflexivity.
Qed.

End NoFace.

(** ** Samples without a face, through the interval *)
Section HeldNoFace.
Variable Math_atan2 : float -> float -> float.
Variable Math_atan : float -> float.
Variable Math_round : float -> Z.

Local Abbreviation intervalTick :=
  (intervalTick Math_atan2 Math_atan Math_round).
Local Abbreviation intervalSample :=
  (intervalSample Math_atan2 Math_atan Math_round).

(** A tick of the running interval that finds no face is the [else]
    branch after the frame was counted. *)
Lemma intervalTick_noFace (held cur : DetectionState) (now : Z) :
  isDetecting cur = true ->
  intervalTick held cur true (Detected None) now
  = (fst (heldNoFaceBranch held (countFrame cur) now),
     if 5000 <? now - lastDetectionTime held
     then Some FaceNotDetected else None).
Proof.
  intros Hdet. unfold Closure.intervalTick. rewrite Hdet. reflexivity.
Qed.


(** C2, as the code has it. A sample without a face, taken while the
    interval runs, resets the confirmation ([faceDetectedStartTime] to
    null, [canStartTimer] to false, pending timeout dropped) when more
    than 5000ms have passed since the [lastDetectionTime] the interval's
    test reads, because only then is [onFaceNotDetected] called; a sample
    without a face at most 5000ms after that time calls nothing and
    leaves the gate and the timer as they were. *)
Theorem noFace_sample_resets_confirmation_after_5000ms
    (held cur : App) (now : Z) :
  isDetecting (detection cur) = true ->
  (now - lastDetectionTime (detection held) <= 5000 ->
     gate (intervalSample held cur true (Detected None) now) = gate cur
     /\ timer (intervalSample held cur true (Detected None) now) = timer cur)
  /\ (5000 < now - lastDetectionTime (detection held) ->
      faceDetectedStartTime
        (gate (intervalSample held cur true (Detected None) now)) = None
      /\ canStartTimer
           (gate (intervalSample held cur true (Detected None) now)) = false
      /\ faceDetectionTimeout
           (gate (intervalSample held cur true (Detected None) now)) = false
      /\ isWaitingForFace
           (gate (intervalSample held cur true (Detected None) now))
         = isWaitingForFace (gate cur)).
Proof.
  intros Hdet. unfold Closure.intervalSample.
  rewrite (intervalTick_noFace _ _ now Hdet).
  split; intros Hgap.
  - destruct (Z.ltb_spec 5000 (now - lastDetectionTime (detection held)));
      [lia|]. simpl. auto.
  - destruct (Z.ltb_spec 5000 (now - lastDetectionTime (detection held)));
      [|lia]. simpl. unfold heldOnFaceNotDetected.
    destruct (negb (isActive (timer held))); simpl; [auto|].
    destruct (_ && _); simpl; auto.
Qed.

End HeldNoFace.

Section HeldNoFaceCounterexamples.


(** C2 fails as stated. The hook was mounted at 900 and the session
    started at 1000; the gate waits with the confirmation started at 1150
    and the face has been in view until 5650. The sample at 5800 finds no
    face, before 5000ms of presence have elapsed, and 4900ms after the
    time the interval's test reads: nothing is called, the confirmation
    start is still 1150 and the pending timeout is kept. *)
Lemma short_absence_keeps_confirmation_start :
  lastDetectionTime (detection mountedAt900) = 900
  /\ lastDetectionTime (detection waitingSince1150) = 5650
  /\ isWaitingForFace (gate waitingSince1150) = true
  /\ faceDetectedStartTime (gate waitingSince1150) = Some 1150
  /\ faceDetectedStartTime
       (gate (intervalSample constAtan2 constAtan constRound
                             mountedAt900 waitingSince1150
                             true (Detected None) 5800)) = Some 1150
  /\ faceDetectionTimeout
       (gate (intervalSample constAtan2 constAtan constRound
                             mountedAt900 waitingSince1150
                             true (Detected None) 5800)) = true.
Proof. vm_compute. repeat split. Qed.

End HeldNoFaceCounterexamples.

(** ** The task timer *)
Section TaskTimer.

Lemma phase_active (s : TimerState) :
  phase s = Running \/ phase s = Paused <-> isActive s = true.
Proof.
  unfold phase. destruct (isActive s), (isPaused s);
    intuition discriminate.
Qed.

(** C5 fails as stated. Stopping the running "Study" timer goes to Idle
    and stores its 123000ms, but "Study" stays the active task. *)
Lemma stopTimer_keeps_activeTask :
  phase studyRunning = Running
  /\ phase (stopTimer studyRunning) = Idle
  /\ taskTimes (stopTimer studyRunning) !! "study" = Some 123000
  /\ activeTask (stopTimer studyRunning) = Some study.
Proof. repeat split. Qed.

(** C5, as the code has it. From Running or Paused with a task
    selected, [stopTimer] goes to Idle and writes the current elapsed
    time under the task's id into the per-task times, in the state and
    in the [task_times] entry of the storage, leaving the times of the
    other tasks alone; the active task stays selected (it is also what
    the [timer_state] entry records). *)
Theorem stopTimer_persists_elapsed_keeps_task (s : TimerState) (t : Task) :
  phase s = Running \/ phase s = Paused ->
  activeTask s = Some t ->
  phase (stopTimer s) = Idle
  /\ taskTimes (stopTimer s) = <[id t := elapsedTime s]> (taskTimes s)
  /\ taskTimes (stopTimer s) !! id t = Some (elapsedTime s)
  /\ (forall other : string,
        other <> id t ->
        taskTimes (stopTimer s) !! other = taskTimes s !! other)
  /\ stored_task_times (stopTimer s) = Some (taskTimes (stopTimer s))
  /\ elapsedTime (stopTimer s) = elapsedTime s
  /\ activeTask (stopTimer s) = Some t
  /\ stored_timer_state (stopTimer s)
     = Some {| task := Some t; elapsed := elapsedTime s;
               active := false; paused := false |}.
Proof.
  intros Hphase Htask. apply phase_active in Hphase.
  unfold stopTimer, phase. rewrite Hphase, Htask. simpl.
  repeat split.
  - apply lookup_insert_eq.
  - intros other Hother. apply lookup_insert_ne. congruence.
Qed.

Lemma last_cons_default (l : list Z) :
  forall a d : Z, List.last (a :: l) d = List.last l a.
Proof.
  induction l as [|b l IH]; intros a d; [reflexivity|].
  change (List.last (a :: b :: l) d) with (List.last (b :: l) d).
  rewrite (IH b d), (IH b a). reflexivity.
Qed.

Lemma startTimer_state (s : TimerState) (t : Task) (now : Z) :
  0 <= previousTimeFor (taskTimes s) t ->
  startTimer s t now
  = {| activeTask := Some t; isActive := true; isPaused := false;
       pausedTime := 0;
       startTime := Some (now - previousTimeFor (taskTimes s) t);
       elapsedTime := previousTimeFor (taskTimes s) t;
       lastElapsedTime := previousTimeFor (taskTimes s) t;
       taskTimes := taskTimes s;
       stored_task_times := stored_task_times s;
       stored_timer_state := stored_timer_state s |}.
Proof.
  intros HE. unfold startTimer.
  destruct (Z.ltb_spec 0 (previousTimeFor (taskTimes s) t)); [reflexivity|].
  replace (previousTimeFor (taskTimes s) t) with 0 by lia.
  rewrite Z.sub_0_r. reflexivity.
Qed.

(** The timer running on [t] since [start], showing [e]. *)
Lemma tick_running (s : TimerState) (t : Task) (start e now1 : Z) :
  start <> 0 ->
  tick {| activeTask := Some t; isActive := true; isPaused := false;
          pausedTime := 0; startTime := Some start;
          elapsedTime := e; lastElapsedTime := e;
          taskTimes := taskTimes s;
          stored_task_times := stored_task_times s;
          stored_timer_state := stored_timer_state s |} now1
  = {| activeTask := Some t; isActive := true; isPaused := false;
       pausedTime := 0; startTime := Some start;
       elapsedTime := now1 - start; lastElapsedTime := now1 - start;
       taskTimes := taskTimes s;
       stored_task_times := stored_task_times s;
       stored_timer_state := stored_timer_state s |}.
Proof.
  intros Hstart. unfold tick. simpl.
  destruct (Z.eqb_spec start 0); [contradiction|reflexivity].
Qed.

(** Over any ticks the running timer shows the time of the last one. *)
Lemma ticks_running (s : TimerState) (t : Task) (start : Z) (ticks : list Z) :
  start <> 0 ->
  forall d : Z,
  fold_left tick ticks
    {| activeTask := Some t; isActive := true; isPaused := false;
       pausedTime := 0; startTime := Some start;
       elapsedTime := d - start; lastElapsedTime := d - start;
       taskTimes := taskTimes s;
       stored_task_times := stored_task_times s;
       stored_timer_state := stored_timer_state s |}
  = {| activeTask := Some t; isActive := true; isPaused := false;
       pausedTime := 0; startTime := Some start;
       elapsedTime := List.last ticks d - start;
       lastElapsedTime := List.last ticks d - start;
       taskTimes := taskTimes s;
       stored_task_times := stored_task_times s;
       stored_timer_state := stored_timer_state s |}.
Proof.
  intros Hstart. induction ticks as [|now1 rest IH]; intros d.
  - reflexivity.
  - cbn [fold_left]. rewrite (tick_running s t start _ now1 Hstart).
    rewrite IH. rewrite last_cons_default. reflexivity.
Qed.

(** C6, as the code has it. Let [E] be the time stored for the task (0
    if none), with [0 <= E], and let the timer be started on the task at
    wall-clock time [now0 > E]. The timer is Running on that task with
    elapsed time [E] and start time [now0 - E], and every tick of the
    provider's interval at [now1] sets the elapsed time to
    [now1 - (now0 - E)]. [pauseTimer] reads no clock: after any ticks it
    gives phase Paused with the elapsed time of the last tick,
    [E + (last - now0)], and [E] when no tick ran. With [E = 120000] the
    pause yields 123000 when the last tick fell at [now0 + 3000]. *)
Theorem startTimer_resumes_pause_keeps_last_tick
    (s : TimerState) (t : Task) (now0 : Z) (ticks : list Z) :
  0 <= previousTimeFor (taskTimes s) t < now0 ->
  phase (startTimer s t now0) = Running
  /\ activeTask (startTimer s t now0) = Some t
  /\ elapsedTime (startTimer s t now0) = previousTimeFor (taskTimes s) t
  /\ startTime (startTimer s t now0)
     = Some (now0 - previousTimeFor (taskTimes s) t)
  /\ (forall now1 : Z,
        phase (tick (startTimer s t now0) now1) = Running
        /\ elapsedTime (tick (startTimer s t now0) now1)
           = now1 - (now0 - previousTimeFor (taskTimes s) t))
  /\ phase (pauseTimer (fold_left tick ticks (startTimer s t now0))) = Paused
  /\ elapsedTime (pauseTimer (fold_left tick ticks (startTimer s t now0)))
     = previousTimeFor (taskTimes s) t + (List.last ticks now0 - now0)
  /\ (previousTimeFor (taskTimes s) t = 120000 ->
      List.last ticks now0 = now0 + 3000 ->
      elapsedTime (pauseTimer (fold_left tick ticks (startTimer s t now0)))
      = 123000).
Proof.
  intros HE.
  rewrite (startTimer_state s t now0) by lia.
  set (E := previousTimeFor (taskTimes s) t) in *.
  assert (Hstart : now0 - E <> 0) by lia.
  assert (Hrun : fold_left tick ticks
    {| activeTask := Some t; isActive := true; isPaused := false;
       pausedTime := 0; startTime := Some (now0 - E);
       elapsedTime := E; lastElapsedTime := E;
       taskTimes := taskTimes s;
       stored_task_times := stored_task_times s;
       stored_timer_state := stored_timer_state s |}
    = {| activeTask := Some t; isActive := true; isPaused := false;
         pausedTime := 0; startTime := Some (now0 - E);
         elapsedTime := List.last ticks now0 - (now0 - E);
         lastElapsedTime := List.last ticks now0 - (now0 - E);
         taskTimes := taskTimes s;
         stored_task_times := stored_task_times s;
         stored_timer_state := stored_timer_state s |}).
  { rewrite <- (ticks_running s t (now0 - E) ticks Hstart now0).
    replace (now0 - (now0 - E)) with E by lia. reflexivity. }
  rewrite Hrun.
  split; [reflexivity|]. split; [reflexivity|]. split; [reflexivity|].
  split; [reflexivity|].
  split.
  - intros now1. rewrite (tick_running s t (now0 - E) E now1 Hstart).
    split; reflexivity.
  - unfold pauseTimer, phase. simpl.
    split; [reflexivity|]. split; [lia|]. intros HE120 Hlast. lia.
Qed.

(** C6 fails as stated. "Study" has 120000ms stored and is started at
    1000000; the provider's interval ticks at 1000005, 1000015, ...,
    1002995, and [pauseTimer] is called at 1003000, after 3000ms of
    Running. The timer is Paused showing 122995, the reading of the last
    tick, not 123000. *)
Lemma pause_after_3000ms_shows_last_tick :
  previousTimeFor (taskTimes studyStored) study = 120000
  /\ List.last ticksUntil2995 0 = 1002995
  /\ phase (pauseTimer (fold_left tick ticksUntil2995
                                  (startTimer studyStored study 1000000)))
     = Paused
  /\ elapsedTime (pauseTimer (fold_left tick ticksUntil2995
                                        (startTimer studyStored study 1000000)))
     = 122995.
Proof. vm_compute. repeat split. Qed.

End TaskTimer.

(** ** The statements at concrete inputs *)
Section ConcreteRuns.

(** Both eyes of [sampleFace] are two units high and three wide; its lips
    touch. *)
Example ear_of_sampleFace :
  meanEAR sampleFace = 0.66666666666666663%float.
Proof. reflexivity. Qed.

Example mar_of_sampleFace :
  computeMAR (getMouth (landmarks sampleFace)) = 0%float.
Proof. reflexivity. Qed.

(** Every signal at its worst: the deductions add up to 150 and the score
    is cut at 0; every signal at rest: 100. *)
Example score_floor :
  calculateAttentionScore 0.1 0.8 {| yaw := 20; pitch := -20; roll := 10 |}
                          "left" 5 = 0.
Proof. reflexivity. Qed.

Example score_ceiling :
  calculateAttentionScore 0.3 0.2 {| yaw := 0; pitch := 0; roll := 0 |}
                          "center" 15 = 100.
Proof. reflexivity. Qed.

(** One blink 61000ms ago and one 1000ms ago. *)
Lemma blinkRate_61000_and_1000 :
  snd (detectBlink
         {| blinkTimestamps := [100000 - 61000; 100000 - 1000];
            isEyeClosed := false; lastBlinkTime := 98900 |}
         0.3%float 100000) = 1.
Proof.
  apply (blinkRate_counts_last_60000ms
           {| blinkTimestamps := [100000 - 61000; 100000 - 1000];
              isEyeClosed := false; lastBlinkTime := 98900 |}
           0.3%float 100000).
  reflexivity.
Defined.

(** MAR going from 0.6 to 0.8 with everything else at rest. *)
Lemma attentionScore_mar_06_08 :
  calculateAttentionScore 0.3 0.8 {| yaw := 0; pitch := 0; roll := 0 |}
                          "center" 15
  <= calculateAttentionScore 0.3 0.6 {| yaw := 0; pitch := 0; roll := 0 |}
                             "center" 15.
Proof.
  apply (attentionScore_range_and_mar_monotone
           0.3%float {| yaw := 0; pitch := 0; roll := 0 |} "center" 15);
    reflexivity.
Defined.

(** An EAR of 7 is handled as an EAR of 1. *)
Lemma detectBlink_at_7 :
  detectBlink closedEye 7 1100 = detectBlink closedEye 1 1100.
Proof.
  apply (detectBlink_total_unclamped closedEye 7%float 1100). reflexivity.
Defined.

(** The first analysed frame of [sampleFace]. *)
Lemma frame_ear_of_sampleFace :
  isDetecting detectingSince0 = true
  /\ completeLandmarks (landmarks sampleFace)
  /\ exists (st' : DetectionState) (r : FaceAnalysisResult),
       sampleStep constAtan2 constAtan constRound
                  detectingSince0 true (Detected (Some sampleFace)) 150
       = (st', Some (FaceDetected r))
       /\ ear r
          = ((computeAdvancedEAR (getLeftEye (landmarks sampleFace))
              + computeAdvancedEAR (getRightEye (landmarks sampleFace)))
             / 2)%float.
Proof.
  assert (Hlm : completeLandmarks (landmarks sampleFace))
    by (unfold completeLandmarks; simpl; lia).
  split; [reflexivity|]. split; [exact Hlm|].
  destruct (frame_ear_is_mean_of_left_and_right
              constAtan2 constAtan constRound
              detectingSince0 sampleFace 150 eq_refl Hlm)
    as (st' & r & Hstep & Hear & _).
  exists st', r. split; [exact Hstep | exact Hear].
Defined.

(** Stopping "Study" while it runs. *)
Lemma stopTimer_on_study :
  phase studyRunning = Running
  /\ activeTask studyRunning = Some study
  /\ phase (stopTimer studyRunning) = Idle
  /\ taskTimes (stopTimer studyRunning) !! "study" = Some 123000.
Proof.
  split; [reflexivity|]. split; [reflexivity|].
  destruct (stopTimer_persists_elapsed_keeps_task
              studyRunning study (or_introl eq_refl) eq_refl)
    as (Hidle & _ & Hstored & _).
  split; [exact Hidle | exact Hstored].
Defined.

End ConcreteRuns.

(** ** More on single calls of the blink tracker *)
Section BlinkCalls.


(** X4. What a call does to the log. It adds at most one entry, the current
    time; it leaves the log exactly as it was unless a closed eye reopens
    (so entries older than 60000ms stay in the log until the next recorded
    blink, they are only left out of the count); the number returned is
    between 0 and the length of the log. *)
Theorem log_changes_only_on_reopening (st : BlinkState) (e : float) (t : Z) :
  (forall x : Z,
      In x (blinkTimestamps (fst (detectBlink st e t))) ->
      In x (blinkTimestamps st) \/ x = t)
  /\ (length (blinkTimestamps (fst (detectBlink st e t)))
      <= length (blinkTimestamps st) + 1)%nat
  /\ (isEyeClosed st = false ->
      blinkTimestamps (fst (detectBlink st e t)) = blinkTimestamps st)
  /\ ((BLINK_THRESHOLD <=? e)%float = false ->
      blinkTimestamps (fst (detectBlink st e t)) = blinkTimestamps st)
  /\ 0 <= snd (detectBlink st e t) <= Z.of_nat (length (blinkTimestamps st)).
Proof.
  assert (Hcases :
    blinkTimestamps (fst (detectBlink st e t)) = blinkTimestamps st
    \/ (isEyeClosed st = true /\ (BLINK_THRESHOLD <=? e)%float = true
        /\ blinkTimestamps (fst (detectBlink st e t))
           = List.filter (withinLastMinute t) (blinkTimestamps st) ++ [t])).
  { unfold detectBlink. simpl.
    destruct ((e <? BLINK_THRESHOLD)%float && negb (isEyeClosed st));
      [left; reflexivity|].
    destruct (BLINK_THRESHOLD <=? e)%float, (isEyeClosed st); simpl;
      try (left; reflexivity).
    destruct (_ && _); [|left; reflexivity].
    right. rewrite filter_recent_snoc. auto. }
  pose proof (List.filter_length_le (withinLastMinute t) (blinkTimestamps st))
    as Hlen.
  repeat split.
  - intros x Hx. destruct Hcases as [Heq | (_ & _ & Heq)];
      rewrite Heq in Hx; [left; exact Hx|].
    apply in_app_or in Hx. destruct Hx as [Hx | Hx].
    + left. apply List.filter_In in Hx. tauto.
    + right. simpl in Hx. destruct Hx as [<- | []]. reflexivity.
  - destruct Hcases as [Heq | (_ & _ & Heq)]; rewrite Heq; [lia|].
    rewrite length_app. simpl. lia.
  - intros Hopen. destruct Hcases as [H | (Hc & _)]; [exact H|congruence].
  - intros Hlow. destruct Hcases as [H | (_ & Hc & _)]; [exact H|congruence].
  - rewrite detectBlink_rate. lia.
  - rewrite detectBlink_rate. lia.
Qed.

End BlinkCalls.

(** ** More on the score and the fatigue level *)
Section ScoreAndFatigue.

Lemma earDeduction_antitone (e1 e2 : float) :
  (e1 <=? e2)%float = true -> earDeduction e2 <= earDeduction e1.
Proof.
  intros Hle. unfold earDeduction.
  destruct (e2 <? 0.15)%float eqn:H15.
  - rewrite (fle_lt_trans _ _ _ Hle H15). lia.
  - destruct (e2 <? 0.20)%float eqn:H20.
    + rewrite (fle_lt_trans _ _ _ Hle H20).
      destruct (e1 <? 0.15)%float; lia.
    + destruct (e2 <? 0.25)%float eqn:H25.
      * rewrite (fle_lt_trans _ _ _ Hle H25).
        destruct (e1 <? 0.15)%float, (e1 <? 0.20)%float; lia.
      * destruct (e1 <? 0.15)%float, (e1 <? 0.20)%float, (e1 <? 0.25)%float;
          lia.
Qed.

(** X5. The score does not fall when the eyes open wider: for fixed MAR, head
    pose, gaze and blink rate, a larger EAR never gives a smaller score. *)
Theorem attentionScore_monotone_in_ear
    (e1 e2 m : float) (hp : HeadPose) (gaze : string) (rate : Z) :
  (e1 <=? e2)%float = true ->
  calculateAttentionScore e1 m hp gaze rate
  <= calculateAttentionScore e2 m hp gaze rate.
Proof.
  intros Hle. rewrite !calculateAttentionScore_deductions.
  pose proof (earDeduction_antitone e1 e2 Hle). lia.
Qed.

Lemma deduction_ranges
    (e m : float) (hp : HeadPose) (gaze : string) (rate : Z) :
  0 <= earDeduction e <= 40 /\ 0 <= marDeduction m <= 30
  /\ 0 <= headDeduction hp <= 25 /\ 0 <= gazeDeduction gaze <= 20
  /\ 0 <= blinkDeduction rate <= 35.
Proof.
  unfold earDeduction, marDeduction, headDeduction, gazeDeduction,
    blinkDeduction.
  repeat match goal with
         | |- context [if ?c then _ else _] => destruct c
         end; lia.
Qed.

(** X6. The full score. The score is 100 exactly when no signal deducts: the
    EAR is not below 0.25, the MAR not above 0.5, the head movement not
    above 25, the gaze is "center" and the blink rate is between 12 and
    25. *)
Theorem attentionScore_100_iff_no_deduction
    (e m : float) (hp : HeadPose) (gaze : string) (rate : Z) :
  calculateAttentionScore e m hp gaze rate = 100
  <-> ((e <? 0.25)%float = false
       /\ (0.5 <? m)%float = false
       /\ (25 <? PrimFloat.abs (yaw hp) + PrimFloat.abs (pitch hp)
                 + PrimFloat.abs (roll hp))%float = false
       /\ gaze = "center"
       /\ 12 <= rate <= 25).
Proof.
  rewrite calculateAttentionScore_deductions.
  pose proof (deduction_ranges e m hp gaze rate) as Hr.
  assert (Hear : earDeduction e = 0 <-> (e <? 0.25)%float = false).
  { unfold earDeduction.
    destruct (e <? 0.15)%float eqn:H15.
    - rewrite (flt_le_trans e 0.15 0.25 H15 eq_refl). split; [lia|discriminate].
    - destruct (e <? 0.20)%float eqn:H20.
      + rewrite (flt_le_trans e 0.20 0.25 H20 eq_refl).
        split; [lia|discriminate].
      + destruct (e <? 0.25)%float; split; try lia; try discriminate;
          reflexivity. }
  assert (Hmar : marDeduction m = 0 <-> (0.5 <? m)%float = false).
  { unfold marDeduction.
    destruct (0.7 <? m)%float eqn:H7.
    - rewrite (fle_lt_trans 0.5 0.7 m eq_refl H7). split; [lia|discriminate].
    - destruct (0.5 <? m)%float; split; try lia; try discriminate;
        reflexivity. }
  assert (Hhead : headDeduction hp = 0
                  <-> (25 <? PrimFloat.abs (yaw hp) + PrimFloat.abs (pitch hp)
                             + PrimFloat.abs (roll hp))%float = false).
  { unfold headDeduction. cbv zeta.
    destruct (45 <? _)%float eqn:H45.
    - rewrite (fle_lt_trans 25 45 _ eq_refl H45). split; [lia|discriminate].
    - destruct (25 <? _)%float; split; try lia; try discriminate;
        reflexivity. }
  assert (Hgaze : gazeDeduction gaze = 0 <-> gaze = "center").
  { unfold gazeDeduction. destruct (String.eqb_spec gaze "center");
      split; try lia; try tauto; try discriminate. }
  assert (Hblink : blinkDeduction rate = 0 <-> 12 <= rate <= 25).
  { unfold blinkDeduction.
    destruct (Z.ltb_spec rate 8), (Z.ltb_spec rate 12), (Z.ltb_spec 35 rate),
             (Z.ltb_spec 25 rate); lia. }
  rewrite <- Hear, <- Hmar, <- Hhead, <- Hgaze, <- Hblink. lia.
Qed.

(** X7. The fatigue level never falls when the score falls, the EAR falls or
    the run of drowsy frames grows. *)
Theorem fatigue_monotone
    (s1 s2 : Z) (e1 e2 : float) (c1 c2 : Z) :
  s2 <= s1 -> (e2 <=? e1)%float = true -> c1 <= c2 ->
  fatigueRank (assessFatigueLevel s1 e1 c1)
  <= fatigueRank (assessFatigueLevel s2 e2 c2).
Proof.
  intros Hs He Hc. unfold assessFatigueLevel.
  assert (H15 : (e1 <? 0.15)%float = true -> (e2 <? 0.15)%float = true)
    by (intros H; exact (fle_lt_trans _ _ _ He H)).
  assert (H20 : (e1 <? 0.20)%float = true -> (e2 <? 0.20)%float = true)
    by (intros H; exact (fle_lt_trans _ _ _ He H)).
  destruct (e1 <? 0.15)%float; [rewrite (H15 eq_refl)|];
  destruct (e1 <? 0.20)%float; try rewrite (H20 eq_refl);
  destruct (Z.ltb_spec s1 30), (Z.ltb_spec s2 30),
           (Z.ltb_spec s1 60), (Z.ltb_spec s2 60),
           (Z.ltb_spec 10 c1), (Z.ltb_spec 10 c2),
           (Z.ltb_spec 5 c1), (Z.ltb_spec 5 c2);
    try lia; simpl; try lia;
  destruct (e2 <? 0.15)%float; simpl; try lia;
  destruct (e2 <? 0.20)%float; simpl; lia.
Qed.

End ScoreAndFatigue.

(** ** More on the sampling loop *)
Section SamplingLoop.
Variable Math_atan2 : float -> float -> float.
Variable Math_atan : float -> float.
Variable Math_round : float -> Z.

Local Abbreviation faceBranch := (faceBranch Math_atan2 Math_atan Math_round).
Local Abbreviation sampleStep := (sampleStep Math_atan2 Math_atan Math_round).

(** A tick of the running loop on a face with complete landmarks hands
    over a result. *)
Lemma sampleStep_face_emits
    (st : DetectionState) (desc : FaceDescription) (now : Z) :
  isDetecting st = true ->
  completeLandmarks (landmarks desc) ->
  exists (st' : DetectionState) (r : FaceAnalysisResult),
    sampleStep st true (Detected (Some desc)) now
    = (st', Some (FaceDetected r)).
Proof.
  intros Hdet Hlm.
  destruct (faceBranch_complete Math_atan2 Math_atan Math_round
              (countFrame st) desc now Hlm) as [r Hr].
  destruct (faceBranch (countFrame st) desc now) as [st' res] eqn:Hface.
  simpl in Hr. subst res. exists st', r.
  unfold FaceDetection.sampleStep. rewrite Hdet, Hface. reflexivity.
Qed.

Lemma assessDrowsinessFromBlinks_flag (rate : Z) :
  fst (assessDrowsinessFromBlinks rate) = (rate <? 12).
Proof.
  unfold assessDrowsinessFromBlinks.
  destruct (Z.ltb_spec rate 8), (Z.ltb_spec rate 12),
           (Z.leb_spec rate 25), (Z.leb_spec rate 35);
    try reflexivity; lia.
Qed.

(** What a tick with a result leaves in the state, besides the tracker. *)
Lemma sampleStep_face_state
    (st st' : DetectionState) (videoReady : bool) (desc : FaceDescription)
    (now : Z) (r : FaceAnalysisResult) :
  sampleStep st videoReady (Detected (Some desc)) now
    = (st', Some (FaceDetected r)) ->
  isDrowsy r
  = ((ear r <? 0.20)%float || (0.4 <? mar r)%float
     || (25 <? PrimFloat.abs (pitch (headPose r)))%float
     || (blinkRate r <? 12))
  /\ isAttentive r = (70 <? attentionScore r)
  /\ consecutiveDrowsyFrames st'
     = (if isDrowsy r then consecutiveDrowsyFrames st + 1 else 0)
  /\ earHistory st' = slice_last 30 (earHistory st ++ [ear r])
  /\ attentionHistory st'
     = slice_last 60 (attentionHistory st ++ [attentionScore r])
  /\ lastDetectionTime st' = now
  /\ lastFullDetections st' = [desc]
  /\ isDetecting st' = true
  /\ frameCount st' = frameCount st + 1
  /\ mar r = computeMAR (getMouth (landmarks desc)).
Proof.
  unfold FaceDetection.sampleStep.
  destruct videoReady; [|discriminate]. simpl.
  destruct (isDetecting st) eqn:Hdet; [|discriminate].
  unfold FaceDetection.faceBranch.
  destruct (estimateHeadPose _ _ _) as [pose|]; [|discriminate].
  destruct (advancedGazeEstimation _) as [gaze|]; [|discriminate].
  destruct (detectBlink _ _ _) as [b rate] eqn:Hb.
  pose proof (assessDrowsinessFromBlinks_flag rate) as Hflag.
  destruct (assessDrowsinessFromBlinks rate) as [drowsy status].
  simpl in Hflag. subst drowsy.
  intros H. injection H as <- <-. simpl. rewrite Hdet.
  repeat split; reflexivity.
Qed.

Lemma low_blink_rate_facts
    (st st' : DetectionState) (videoReady : bool) (desc : FaceDescription)
    (now : Z) (r : FaceAnalysisResult) :
  sampleStep st videoReady (Detected (Some desc)) now
    = (st', Some (FaceDetected r)) ->
  (blinkRate r < 12 ->
     isDrowsy r = true
     /\ consecutiveDrowsyFrames st' = consecutiveDrowsyFrames st + 1)
  /\ (blinkRate r < 8 -> attentionScore r <= 65 /\ isAttentive r = false)
  /\ (blinkTimestamps (blink st) = [] -> blinkRate r = 0).
Proof.
  intros Hstep.
  destruct (sampleStep_face_state _ _ _ _ _ _ Hstep)
    as (Hdrowsy & Hatt & Hcount & _).
  destruct (sampleStep_face_result _ _ _ _ _ _ _ _ _ Hstep)
    as (_ & Hrate & _ & Hscore & _).
  split; [|split].
  - intros Hlow.
    assert (Hd : isDrowsy r = true).
    { rewrite Hdrowsy. destruct (Z.ltb_spec (blinkRate r) 12); [|lia].
      rewrite !orb_true_r. reflexivity. }
    split; [exact Hd|]. rewrite Hcount, Hd. reflexivity.
  - intros Hlow.
    assert (Hs : attentionScore r <= 65).
    { rewrite Hscore, calculateAttentionScore_deductions.
      pose proof (deduction_ranges (ear r) (mar r) (headPose r)
                                   (gazeDirection r) (blinkRate r)) as Hr.
      assert (blinkDeduction (blinkRate r) = 35)
        by (unfold blinkDeduction;
            destruct (Z.ltb_spec (blinkRate r) 8); [reflexivity|lia]).
      lia. }
    split; [exact Hs|]. rewrite Hatt.
    destruct (Z.ltb_spec 70 (attentionScore r)); [lia|reflexivity].
  - intros Hlog. rewrite Hrate, detectBlink_rate, Hlog. reflexivity.
Qed.

(** X8. Few blinks make every frame drowsy. For every result the loop hands
    over: a blink rate below 12 sets [isDrowsy] and lengthens the run of
    consecutive drowsy frames by one; a blink rate below 8 keeps the score
    at 65 or less, so the frame is not attentive; and when the log is
    empty (as at the start of a session) the rate is 0. *)
Theorem low_blink_rate_frames_are_drowsy
    (st st' : DetectionState) (videoReady : bool) (desc : FaceDescription)
    (now : Z) (r : FaceAnalysisResult) :
  sampleStep st videoReady (Detected (Some desc)) now
    = (st', Some (FaceDetected r)) ->
  (blinkRate r < 12 ->
     isDrowsy r = true
     /\ consecutiveDrowsyFrames st' = consecutiveDrowsyFrames st + 1)
  /\ (blinkRate r < 8 -> attentionScore r <= 65 /\ isAttentive r = false)
  /\ (blinkTimestamps (blink st) = [] -> blinkRate r = 0).
Proof. exact (low_blink_rate_facts st st' videoReady desc now r). Qed.



Lemma length_slice_last {A} (n : nat) (l : list A) :
  length (slice_last n l) = Nat.min n (length l).
Proof. unfold slice_last. rewrite length_drop. lia. Qed.

Lemma slice_last_snoc {A} (n : nat) (l : list A) (a : A) :
  (0 < n)%nat -> exists pre, slice_last n (l ++ [a]) = pre ++ [a].
Proof.
  intros Hn. unfold slice_last. rewrite length_app. simpl.
  rewrite drop_app_le by lia. eauto.
Qed.

(** X10. The histories are sliding windows. After a tick with a result the EAR
    history holds at most 30 values and the score history at most 60, each
    one longer than before unless already full, and each ends with the
    value of this frame. *)
Theorem histories_are_capped
    (st st' : DetectionState) (videoReady : bool) (desc : FaceDescription)
    (now : Z) (r : FaceAnalysisResult) :
  sampleStep st videoReady (Detected (Some desc)) now
    = (st', Some (FaceDetected r)) ->
  length (earHistory st') = Nat.min 30 (length (earHistory st) + 1)
  /\ length (attentionHistory st')
     = Nat.min 60 (length (attentionHistory st) + 1)
  /\ List.last (earHistory st') 0%float = ear r
  /\ List.last (attentionHistory st') 0 = attentionScore r.
Proof.
  intros Hstep.
  destruct (sampleStep_face_state _ _ _ _ _ _ Hstep)
    as (_ & _ & _ & He & Ha & _).
  rewrite He, Ha, !length_slice_last, !length_app. simpl.
  split; [reflexivity|]. split; [reflexivity|].
  destruct (slice_last_snoc 30 (earHistory st) (ear r)) as [p1 ->]; [lia|].
  destruct (slice_last_snoc 60 (attentionHistory st) (attentionScore r))
    as [p2 ->]; [lia|].
  rewrite !List.last_last. auto.
Qed.

End SamplingLoop.

(** ** Ticks without a result, restarts and notifications *)
Section LoopLifecycle.
Variable Math_atan2 : float -> float -> float.
Variable Math_atan : float -> float.
Variable Math_round : float -> Z.

Local Abbreviation faceBranch := (faceBranch Math_atan2 Math_atan Math_round).
Local Abbreviation sampleStep := (sampleStep Math_atan2 Math_atan Math_round).

Lemma estimateHeadPose_complete_inv (lm : Landmarks) :
  is_Some (estimateHeadPose Math_atan2 Math_atan lm) -> completeLandmarks lm.
Proof.
  unfold estimateHeadPose, completeLandmarks. intros [pose H].
  destruct (getNose lm !! 3%nat) eqn:H1; [|discriminate].
  destruct (getLeftEye lm !! 0%nat) eqn:H2; [|discriminate].
  destruct (getRightEye lm !! 3%nat) eqn:H3; [|discriminate].
  destruct (getMouth lm !! 0%nat) eqn:H4; [|discriminate].
  destruct (getMouth lm !! 6%nat) eqn:H5; [|discriminate].
  apply lookup_lt_Some in H1, H2, H3, H5. lia.
Qed.

(** X11. A tick that hands over no result (the loop not running, the video not
    ready, the detector failing, no face, or a face with missing
    landmarks) leaves the blink tracker, the run of drowsy frames and both
    histories as they were; no tick ever stops the loop. In particular a
    stretch without a face does not reset the run of drowsy frames. *)
Theorem tick_without_result_keeps_analysis_state
    (st : DetectionState) (videoReady : bool) (outcome : DetectorOutcome)
    (now : Z) :
  isDetecting (fst (sampleStep st videoReady outcome now)) = isDetecting st
  /\ detectionInterval (fst (sampleStep st videoReady outcome now))
     = detectionInterval st
  /\ ((forall r, snd (sampleStep st videoReady outcome now)
                 <> Some (FaceDetected r)) ->
      blink (fst (sampleStep st videoReady outcome now)) = blink st
      /\ consecutiveDrowsyFrames (fst (sampleStep st videoReady outcome now))
         = consecutiveDrowsyFrames st
      /\ earHistory (fst (sampleStep st videoReady outcome now))
         = earHistory st
      /\ attentionHistory (fst (sampleStep st videoReady outcome now))
         = attentionHistory st).
Proof.
  unfold FaceDetection.sampleStep.
  destruct (videoReady && isDetecting st);
    [|simpl; repeat (split || intros ?); reflexivity].
  destruct outcome as [|[desc|]].
  - simpl. repeat (split || intros ?); reflexivity.
  - unfold FaceDetection.faceBranch.
    destruct (estimateHeadPose Math_atan2 Math_atan (landmarks desc))
      as [pose|]; [|simpl; repeat (split || intros ?); reflexivity].
    destruct (advancedGazeEstimation (landmarks desc)) as [gaze|];
      [|simpl; repeat (split || intros ?); reflexivity].
    destruct (detectBlink _ _ _) as [b rate].
    destruct (assessDrowsinessFromBlinks rate) as [drowsy status]. simpl.
    split; [reflexivity|]. split; [reflexivity|].
    intros H. exfalso. eapply H. reflexivity.
  - simpl. repeat (split || intros ?); reflexivity.
Qed.

(** X13. Starting and stopping detection. A second start while detecting
    changes nothing (the absence clock is not reset); a second stop
    changes nothing; and a start after a stop is a loop that runs with an
    empty blink tracker, no drowsy frames counted and the absence clock at
    the time of the start. *)
Theorem start_stop_detection_idempotent (st : DetectionState) (a b : Z) :
  startDetection (startDetection st a) b = startDetection st a
  /\ memoizedStopDetection (memoizedStopDetection st) = memoizedStopDetection st
  /\ isDetecting (startDetection (memoizedStopDetection st) a) = true
  /\ blink (startDetection (memoizedStopDetection st) a) = initialBlinkState
  /\ consecutiveDrowsyFrames (startDetection (memoizedStopDetection st) a) = 0
  /\ lastDetectionTime (startDetection (memoizedStopDetection st) a) = a.
Proof.
  unfold startDetection, memoizedStopDetection.
  destruct (isDetecting st) eqn:Hdet; simpl; rewrite ?Hdet; simpl;
    repeat split; reflexivity.
Qed.

End LoopLifecycle.

(** ** What a session reads: the held log, counter and clock *)
Section HeldBlinkRate.

Lemma filter_length_le_pointwise (f g : Z -> bool) (l : list Z) :
  (forall x : Z, f x = true -> g x = true) ->
  (length (List.filter f l) <= length (List.filter g l))%nat.
Proof.
  intros Hfg. induction l as [|a l IH]; [apply le_n|]. simpl.
  destruct (f a) eqn:Hf.
  - rewrite (Hfg a Hf). simpl. lia.
  - destruct (g a); simpl; lia.
Qed.

(** X2. The blink rate of a session can only fall. Two calls of the held
    [detectBlink], the second not earlier than the first, whatever the
    EARs and whatever the state in between: the second returns no more
    than the first, neither returns more than the length of the held log,
    and a call more than 60000ms after every held entry returns 0. *)
Theorem held_blink_rate_never_rises
    (held cur1 cur2 : BlinkState) (e1 e2 : float) (now1 now2 : Z) :
  now1 <= now2 ->
  0 <= snd (heldDetectBlink held cur2 e2 now2)
    <= snd (heldDetectBlink held cur1 e1 now1)
  /\ snd (heldDetectBlink held cur1 e1 now1)
     <= Z.of_nat (length (blinkTimestamps held))
  /\ (Forall (fun ts => ts + 60000 < now2) (blinkTimestamps held) ->
      snd (heldDetectBlink held cur2 e2 now2) = 0).
Proof.
  intros Hle. unfold heldDetectBlink. cbv zeta. cbn [snd].
  split; [split; [lia|]|split].
  - apply Nat2Z.inj_le, filter_length_le_pointwise.
    intros ts. unfold withinLastMinute. rewrite !Z.leb_le. lia.
  - apply Nat2Z.inj_le, List.filter_length_le.
  - intros Hold.
    assert (Hnil : List.filter (withinLastMinute now2) (blinkTimestamps held)
                   = []).
    { induction Hold as [|ts l Hts _ IH]; [reflexivity|]. simpl.
      unfold withinLastMinute at 1.
      destruct (Z.leb_spec (now2 - ts) 60000); [lia|exact IH]. }
    rewrite Hnil. reflexivity.
Qed.

End HeldBlinkRate.

Section HeldResults.
Variable Math_atan2 : float -> float -> float.
Variable Math_atan : float -> float.
Variable Math_round : float -> Z.

Local Abbreviation intervalTick :=
  (intervalTick Math_atan2 Math_atan Math_round).
Local Abbreviation session := (session Math_atan2 Math_atan Math_round).

(** What a result of the interval is made from. *)
Lemma intervalTick_result
    (held cur cur' : DetectionState) (videoReady : bool)
    (outcome : DetectorOutcome) (now : Z) (r : FaceAnalysisResult) :
  intervalTick held cur videoReady outcome now = (cur', Some (FaceDetected r)) ->
  blinkRate r
  = Z.of_nat (length (List.filter (withinLastMinute now)
                                  (blinkTimestamps (blink held))))
  /\ attentionScore r
     = calculateAttentionScore (ear r) (mar r) (headPose r)
                               (gazeDirection r) (blinkRate r)
  /\ fatigueLevel r
     = assessFatigueLevel (attentionScore r) (ear r)
                          (consecutiveDrowsyFrames held)
  /\ isDrowsy r
     = ((ear r <? 0.20)%float || (0.4 <? mar r)%float
        || (25 <? PrimFloat.abs (pitch (headPose r)))%float
        || (blinkRate r <? 12))
  /\ isAttentive r = (70 <? attentionScore r)
  /\ consecutiveDrowsyFrames cur'
     = (if isDrowsy r then consecutiveDrowsyFrames cur + 1 else 0)
  /\ lastDetectionTime cur' = now.
Proof.
  unfold Closure.intervalTick.
  destruct (videoReady && isDetecting cur); [|discriminate].
  destruct outcome as [|[desc|]]; [discriminate| |].
  2:{ destruct (heldNoFaceBranch held (countFrame cur) now) as [c fire].
      destruct fire; discriminate. }
  unfold heldFaceBranch.
  destruct (estimateHeadPose _ _ _) as [pose|]; [|discriminate].
  destruct (advancedGazeEstimation _) as [gaze|]; [|discriminate].
  unfold heldDetectBlink. cbv zeta.
  match goal with
  | |- context [assessDrowsinessFromBlinks ?n] =>
      pose proof (assessDrowsinessFromBlinks_flag n) as Hflag;
      destruct (assessDrowsinessFromBlinks n) as [drowsy status]
  end.
  simpl in Hflag. subst drowsy.
  intros H. injection H as <- <-. simpl.
  repeat split; reflexivity.
Qed.

Lemma session_calls_cons (held cur : DetectionState)
    (outcome : DetectorOutcome) (now : Z) (rest : list (DetectorOutcome * Z)) :
  snd (session held cur ((outcome, now) :: rest))
  = match snd (intervalTick held cur true outcome now) with
    | Some c => [(now, c)]
    | None => []
    end
    ++ snd (session held (fst (intervalTick held cur true outcome now)) rest).
Proof.
  simpl. destruct (intervalTick held cur true outcome now) as [cur' cb].
  simpl. destruct (session held cur' rest) as [final calls].
  destruct cb; reflexivity.
Qed.

(** X15. The results of a session do not see the drowsy frames it
    counts. Every result handed over during a session has the fatigue
    level [assessFatigueLevel] gives for its score, its EAR and the held
    counter, however many drowsy frames the session has counted; and when
    the held blink log is empty, every result has blink rate 0, is
    drowsy, has a score of 65 or less and is not attentive, whatever the
    frames show. *)
Theorem session_results_read_held_counter_and_log
    (held cur : DetectionState) (ticks : list (DetectorOutcome * Z)) :
  Forall
    (fun call =>
       match snd call with
       | FaceDetected r =>
           fatigueLevel r
           = assessFatigueLevel (attentionScore r) (ear r)
                                (consecutiveDrowsyFrames held)
           /\ (blinkTimestamps (blink held) = [] ->
               blinkRate r = 0 /\ isDrowsy r = true
               /\ attentionScore r <= 65 /\ isAttentive r = false)
       | FaceNotDetected => True
       end)
    (snd (session held cur ticks)).
Proof.
  revert cur. induction ticks as [|[outcome now] rest IH]; intros cur.
  - constructor.
  - rewrite session_calls_cons. apply Forall_app. split; [|apply IH].
    destruct (intervalTick held cur true outcome now) as [cur' cb] eqn:Htick.
    simpl. destruct cb as [[r|]|];
      [|constructor; [exact I|constructor]|constructor].
    constructor; [|constructor]. simpl.
    destruct (intervalTick_result _ _ _ _ _ _ _ Htick)
      as (Hrate & Hscore & Hfat & Hdrowsy & Hatt & _).
    split; [exact Hfat|]. intros Hlog.
    rewrite Hlog in Hrate. change (blinkRate r = 0) in Hrate.
    assert (Hs : attentionScore r <= 65).
    { rewrite Hscore, calculateAttentionScore_deductions.
      pose proof (deduction_ranges (ear r) (mar r) (headPose r)
                                   (gazeDirection r) (blinkRate r)) as Hr.
      rewrite Hrate in Hr |- *.
      change (blinkDeduction 0) with 35 in Hr |- *. lia. }
    split; [exact Hrate|]. split.
    + rewrite Hdrowsy, Hrate. rewrite !orb_true_r. reflexivity.
    + split; [exact Hs|]. rewrite Hatt.
      destruct (Z.ltb_spec 70 (attentionScore r)); [lia|reflexivity].
Qed.

(** X12. A detected face writes the absence clock, which the interval
    does not read back. A tick of the running interval that finds a face
    puts [lastDetectionTime] at the time of the tick and hands over a
    result exactly when the landmarks the analysis dereferences are
    there; the test of a following tick without a face still reads the
    held time: it calls [onFaceNotDetected] exactly when more than 5000ms
    have passed since that. *)
Theorem face_tick_writes_absence_clock
    (held cur : DetectionState) (desc : FaceDescription) (now : Z) :
  isDetecting cur = true ->
  lastDetectionTime
    (fst (intervalTick held cur true (Detected (Some desc)) now)) = now
  /\ (is_Some (snd (intervalTick held cur true (Detected (Some desc)) now))
      <-> completeLandmarks (landmarks desc))
  /\ (forall now' : Z,
        snd (intervalTick
               held
               (fst (intervalTick held cur true (Detected (Some desc)) now))
               true (Detected None) now') = Some FaceNotDetected
        <-> 5000 < now' - lastDetectionTime held).
Proof.
  intros Hdet.
  assert (Hdet' : isDetecting
            (fst (intervalTick held cur true (Detected (Some desc)) now))
          = true).
  { unfold Closure.intervalTick. rewrite Hdet. simpl. unfold heldFaceBranch.
    destruct (estimateHeadPose _ _ _) as [pose|]; [|exact Hdet].
    destruct (advancedGazeEstimation _) as [gaze|]; [|exact Hdet].
    destruct (heldDetectBlink _ _ _ _) as [b rate].
    destruct (assessDrowsinessFromBlinks rate). exact Hdet. }
  split; [|split].
  - unfold Closure.intervalTick. rewrite Hdet. simpl. unfold heldFaceBranch.
    destruct (estimateHeadPose _ _ _) as [pose|]; [|reflexivity].
    destruct (advancedGazeEstimation _) as [gaze|]; [|reflexivity].
    destruct (heldDetectBlink _ _ _ _) as [b rate].
    destruct (assessDrowsinessFromBlinks rate). reflexivity.
  - unfold Closure.intervalTick. rewrite Hdet. simpl. unfold heldFaceBranch.
    split.
    + intros Hsome.
      destruct (estimateHeadPose Math_atan2 Math_atan (landmarks desc))
        as [pose|] eqn:Hpose;
        [|simpl in Hsome; destruct Hsome; discriminate].
      destruct (advancedGazeEstimation (landmarks desc)) as [gaze|] eqn:Hgaze;
        [|simpl in Hsome; destruct Hsome; discriminate].
      apply (estimateHeadPose_complete_inv Math_atan2 Math_atan).
      rewrite Hpose. eauto.
    + intros Hlm.
      destruct (estimateHeadPose_complete Math_atan2 Math_atan
                  (landmarks desc) Hlm) as [pose Hpose].
      destruct (advancedGazeEstimation_complete (landmarks desc) Hlm)
        as [gaze Hgaze].
      rewrite Hpose, Hgaze.
      destruct (heldDetectBlink _ _ _ _) as [b rate].
      destruct (assessDrowsinessFromBlinks rate). simpl. eauto.
  - intros now'. unfold Closure.intervalTick at 1. rewrite Hdet'. simpl.
    destruct (Z.ltb_spec 5000 (now' - lastDetectionTime held)).
    + split; [intros _; assumption | reflexivity].
    + split; [discriminate | lia].
Qed.

End HeldResults.

Section SessionNotifications.
Variable Math_atan2 : float -> float -> float.
Variable Math_atan : float -> float.
Variable Math_round : float -> Z.

Local Abbreviation intervalTick :=
  (intervalTick Math_atan2 Math_atan Math_round).
Local Abbreviation session := (session Math_atan2 Math_atan Math_round).

(** X14. Which samples of an absence notify. Over any run of ticks of a
    running interval that find no face, [onFaceNotDetected] is called at
    exactly the ticks that come more than 5000ms after the held
    [lastDetectionTime], earlier calls or not; no other callback is
    called. *)
Theorem session_noFace_notifications_are_late_samples
    (held cur : DetectionState) (times : list Z) :
  isDetecting cur = true ->
  snd (session held cur (absentAt times))
  = List.map (fun t => (t, FaceNotDetected))
             (List.filter (fun t => 5000 <? t - lastDetectionTime held) times).
Proof.
  intros Hdet. revert cur Hdet.
  induction times as [|now rest IH]; intros cur Hdet; [reflexivity|].
  change (absentAt (now :: rest)) with ((Detected None, now) :: absentAt rest).
  cbn [Closure.session].
  rewrite (intervalTick_noFace Math_atan2 Math_atan Math_round held cur now Hdet).
  specialize (IH (fst (heldNoFaceBranch held (countFrame cur) now)) Hdet).
  destruct (session held (fst (heldNoFaceBranch held (countFrame cur) now))
                    (absentAt rest)) as [final calls].
  simpl in IH. subst calls. simpl.
  destruct (5000 <? now - lastDetectionTime held); reflexivity.
Qed.

End SessionNotifications.

(** ** Degenerate landmarks *)
Section DegenerateLandmarks.
Variable Math_atan2 : float -> float -> float.
Variable Math_atan : float -> float.
Variable Math_round : float -> Z.

Local Abbreviation sampleStep := (sampleStep Math_atan2 Math_atan Math_round).

Lemma isNaN_add_l (a b : float) : isNaN a -> isNaN (a + b).
Proof.
  unfold isNaN. intros Ha. rewrite FloatAxioms.add_spec, Ha. reflexivity.
Qed.

Lemma isNaN_add_r (a b : float) : isNaN b -> isNaN (a + b).
Proof.
  unfold isNaN. intros Hb. rewrite FloatAxioms.add_spec, Hb.
  destruct (Prim2SF a); reflexivity.
Qed.

Lemma isNaN_sub_r (a b : float) : isNaN b -> isNaN (a - b).
Proof.
  unfold isNaN. intros Hb. rewrite FloatAxioms.sub_spec, Hb.
  destruct (Prim2SF a); reflexivity.
Qed.

Lemma isNaN_div_l (a b : float) : isNaN a -> isNaN (a / b).
Proof.
  unfold isNaN. intros Ha. rewrite FloatAxioms.div_spec, Ha. reflexivity.
Qed.

Lemma isNaN_abs (a : float) : isNaN a -> isNaN (PrimFloat.abs a).
Proof. unfold isNaN. intros Ha. rewrite FloatAxioms.abs_spec, Ha. reflexivity. Qed.

Lemma isNaN_not_above (c a : float) : isNaN a -> (c <? a)%float = false.
Proof.
  unfold isNaN. intros Ha. rewrite FloatAxioms.ltb_spec, Ha.
  unfold SFltb. destruct (Prim2SF c); reflexivity.
Qed.

Lemma empty_contour_center_isNaN (f : Point -> float) :
  isNaN (sum_by f [] / number_of_nat (length (@nil Point))).
Proof. reflexivity. Qed.

Lemma advancedGazeEstimation_nose (lm : Landmarks) :
  is_Some (advancedGazeEstimation lm) <-> (4 <= length (getNose lm))%nat.
Proof.
  unfold advancedGazeEstimation. split.
  - intros [g Hg]. destruct (getNose lm !! 3%nat) eqn:Hn; [|discriminate].
    apply lookup_lt_Some in Hn. lia.
  - intros Hn.
    destruct (lookup_lt_is_Some_2 (getNose lm) 3) as [p ->]; [lia|].
    simpl.
    repeat match goal with
           | |- context [if ?c then _ else _] => destruct c
           end; eauto.
Qed.

(** X16. The gaze is never "unknown". [advancedGazeEstimation] answers exactly
    when the nose has its tip (four points or more), and its answer is one
    of "center", "left", "right", "up", "down"; with an eye contour that is
    empty the eye centre is NaN and the answer is "center". *)
Theorem gaze_is_never_unknown (lm : Landmarks) :
  (is_Some (advancedGazeEstimation lm) <-> (4 <= length (getNose lm))%nat)
  /\ (forall g : string, advancedGazeEstimation lm = Some g -> In g gazeNames)
  /\ (getLeftEye lm = [] \/ getRightEye lm = [] ->
      (4 <= length (getNose lm))%nat ->
      advancedGazeEstimation lm = Some "center").
Proof.
  split; [apply advancedGazeEstimation_nose|]. split.
  - unfold advancedGazeEstimation, gazeNames. intros g.
    destruct (getNose lm !! 3%nat); [|discriminate]. simpl.
    repeat match goal with
           | |- context [if ?c then _ else _] => destruct c
           end;
      intros H; injection H as <-; simpl; tauto.
  - intros Hempty Hn. unfold advancedGazeEstimation.
    destruct (lookup_lt_is_Some_2 (getNose lm) 3) as [p ->]; [lia|].
    cbv zeta. simpl.
    assert (Hx : isNaN
      ((sum_by x (getLeftEye lm) / number_of_nat (length (getLeftEye lm))
        + sum_by x (getRightEye lm) / number_of_nat (length (getRightEye lm)))
       / 2)%float).
    { apply isNaN_div_l. destruct Hempty as [-> | ->];
        [apply isNaN_add_l | apply isNaN_add_r]; reflexivity. }
    assert (Hy : isNaN
      ((sum_by y (getLeftEye lm) / number_of_nat (length (getLeftEye lm))
        + sum_by y (getRightEye lm) / number_of_nat (length (getRightEye lm)))
       / 2)%float).
    { apply isNaN_div_l. destruct Hempty as [-> | ->];
        [apply isNaN_add_l | apply isNaN_add_r]; reflexivity. }
    rewrite (isNaN_not_above 8 _ (isNaN_abs _ (isNaN_sub_r (x p) _ Hx))).
    rewrite (isNaN_not_above 6 _ (isNaN_abs _ (isNaN_sub_r (y p) _ Hy))).
    reflexivity.
Qed.




End DegenerateLandmarks.

(** ** More on the task timer *)
Section TaskTimerLifecycle.

(** X18. Time accumulates over the running phases only. A task with stored time
    [E >= 0] is started at [t0], ticks at [t1], is paused, resumed at [t2],
    ticks at [t3] and is stopped (the wall clock ahead of the accumulated
    time, as [Date.now()] is): the elapsed time and the time stored for the
    task are [E + (t1 - t0) + (t3 - t2)], whatever the length [t2 - t1] of
    the pause. *)
Theorem elapsed_is_sum_of_running_phases
    (s : TimerState) (t : Task) (t0 t1 t2 t3 : Z) :
  0 <= previousTimeFor (taskTimes s) t < t0 ->
  previousTimeFor (taskTimes s) t + (t1 - t0) < t2 ->
  elapsedTime
    (tick (resumeTimer (pauseTimer (tick (startTimer s t t0) t1)) t2) t3)
  = previousTimeFor (taskTimes s) t + (t1 - t0) + (t3 - t2)
  /\ phase (tick (resumeTimer (pauseTimer (tick (startTimer s t t0) t1)) t2) t3)
     = Running
  /\ taskTimes
       (stopTimer
          (tick (resumeTimer (pauseTimer (tick (startTimer s t t0) t1)) t2) t3))
     !! id t
     = Some (previousTimeFor (taskTimes s) t + (t1 - t0) + (t3 - t2)).
Proof.
  intros HE Hclock.
  rewrite (startTimer_state s t t0) by lia.
  set (E := previousTimeFor (taskTimes s) t) in *.
  match goal with
  | |- context [tick ?r t1] =>
      assert (Ht1 : tick r t1 =
        {| activeTask := Some t; isActive := true; isPaused := false;
           pausedTime := 0; startTime := Some (t0 - E);
           elapsedTime := t1 - (t0 - E); lastElapsedTime := t1 - (t0 - E);
           taskTimes := taskTimes s;
           stored_task_times := stored_task_times s;
           stored_timer_state := stored_timer_state s |})
        by (unfold tick; simpl;
            destruct (Z.eqb_spec (t0 - E) 0); [lia | reflexivity]);
      rewrite Ht1; clear Ht1
  end.
  unfold pauseTimer, resumeTimer. cbn [isActive isPaused negb andb
    lastElapsedTime elapsedTime activeTask startTime pausedTime taskTimes
    stored_task_times stored_timer_state].
  match goal with
  | |- context [tick ?r t3] =>
      assert (Ht3 : tick r t3 =
        {| activeTask := Some t; isActive := true; isPaused := false;
           pausedTime := 0; startTime := Some (t2 - (t1 - (t0 - E)));
           elapsedTime := t3 - (t2 - (t1 - (t0 - E)));
           lastElapsedTime := t3 - (t2 - (t1 - (t0 - E)));
           taskTimes := taskTimes s;
           stored_task_times := stored_task_times s;
           stored_timer_state := stored_timer_state s |})
        by (unfold tick; simpl;
            destruct (Z.eqb_spec (t2 - (t1 - (t0 - E))) 0);
            [lia | reflexivity]);
      rewrite Ht3; clear Ht3
  end.
  unfold stopTimer, phase. simpl.
  rewrite lookup_insert_eq.
  repeat split; f_equal; lia.
Qed.

(** X19. Stopping and starting again continues: after [stopTimer] on an active
    timer with task [t] and elapsed time [e >= 0], [startTimer] on [t] at
    [now] is Running with elapsed time [e] and start time [now - e]. *)
Theorem stop_then_start_continues (s : TimerState) (t : Task) (now : Z) :
  isActive s = true ->
  activeTask s = Some t ->
  0 <= elapsedTime s ->
  phase (startTimer (stopTimer s) t now) = Running
  /\ activeTask (startTimer (stopTimer s) t now) = Some t
  /\ elapsedTime (startTimer (stopTimer s) t now) = elapsedTime s
  /\ startTime (startTimer (stopTimer s) t now) = Some (now - elapsedTime s).
Proof.
  intros Hact Htask He.
  assert (Hprev : previousTimeFor (taskTimes (stopTimer s)) t = elapsedTime s).
  { unfold previousTimeFor, stopTimer. rewrite Hact, Htask. simpl.
    rewrite lookup_insert_eq. reflexivity. }
  rewrite startTimer_state by (rewrite Hprev; exact He).
  rewrite Hprev. unfold phase. simpl. auto.
Qed.

(** X20. [resetTimer] forgets the active task's time and no other: started
    again at [now] the task begins from 0 with start time [now]; the stored
    times of tasks with another id are as before; the task is deselected
    and the [timer_state] entry removed. *)
Theorem reset_forgets_only_the_active_task
    (s : TimerState) (t : Task) (now : Z) :
  activeTask s = Some t ->
  taskTimes (resetTimer s) !! id t = None
  /\ elapsedTime (startTimer (resetTimer s) t now) = 0
  /\ startTime (startTimer (resetTimer s) t now) = Some now
  /\ (forall other : string,
        other <> id t ->
        taskTimes (resetTimer s) !! other = taskTimes s !! other)
  /\ stored_task_times (resetTimer s) = Some (taskTimes (resetTimer s))
  /\ activeTask (resetTimer s) = None
  /\ phase (resetTimer s) = Idle
  /\ stored_timer_state (resetTimer s) = None.
Proof.
  intros Htask.
  assert (Htimes : taskTimes (resetTimer s) = delete (id t) (taskTimes s)).
  { unfold resetTimer. rewrite Htask. reflexivity. }
  assert (Hprev : previousTimeFor (taskTimes (resetTimer s)) t = 0).
  { unfold previousTimeFor. rewrite Htimes, lookup_delete_eq. reflexivity. }
  split; [rewrite Htimes; apply lookup_delete_eq|].
  rewrite startTimer_state by lia. rewrite Hprev, Z.sub_0_r. simpl.
  split; [reflexivity|]. split; [reflexivity|].
  split.
  - intros other Hother. rewrite Htimes. apply lookup_delete_ne. congruence.
  - unfold resetTimer, phase. rewrite Htask. simpl. auto.
Qed.

End TaskTimerLifecycle.

Section TaskTimerFlags.

(** X21. Every operation of the provider keeps the flags consistent: paused
    only while active, and a start time whenever Running. *)
Theorem timer_operations_keep_flags (s : TimerState) :
  timerFlagsOk s ->
  (forall (t : Task) (now : Z), timerFlagsOk (startTimer s t now))
  /\ (forall now : Z, timerFlagsOk (tick s now))
  /\ timerFlagsOk (pauseTimer s)
  /\ (forall now : Z, timerFlagsOk (resumeTimer s now))
  /\ timerFlagsOk (stopTimer s)
  /\ timerFlagsOk (resetTimer s)
  /\ timerFlagsOk (saveTimerState s).
Proof.
  intros [Hp Hr].
  destruct s as [task0 active0 paused0 el st pt le times stimes sstate].
  unfold timerFlagsOk, phase, startTimer, tick, pauseTimer, resumeTimer,
    stopTimer, resetTimer, saveTimerState in *.
  simpl in *.
  destruct active0, paused0, st as [z|], task0 as [tk|]; simpl in *;
    repeat split; intros; simpl;
    repeat match goal with
           | |- context [if ?c then _ else _] => destruct c; simpl
           end;
    try discriminate; eauto.
Qed.

(** X22. Saving and reloading. With a task selected, a fresh provider that
    loads at [now] what [saveTimerState] wrote has the same task, elapsed
    time, flags and per-task times; a timer that was Running gets the
    start time [now - elapsed], so its next tick at [now'] shows the saved
    elapsed time plus [now' - now] (the wall clock ahead of the elapsed
    time). *)
Theorem save_then_reload_restores_timer
    (s : TimerState) (t : Task) (now : Z) :
  activeTask s = Some t ->
  activeTask (reload (saveTimerState s) now) = Some t
  /\ elapsedTime (reload (saveTimerState s) now) = elapsedTime s
  /\ isActive (reload (saveTimerState s) now) = isActive s
  /\ isPaused (reload (saveTimerState s) now) = isPaused s
  /\ taskTimes (reload (saveTimerState s) now) = taskTimes s
  /\ lastElapsedTime (reload (saveTimerState s) now) = elapsedTime s
  /\ (phase s = Running ->
      startTime (reload (saveTimerState s) now) = Some (now - elapsedTime s)
      /\ forall now' : Z,
           elapsedTime s < now ->
           elapsedTime (tick (reload (saveTimerState s) now) now')
           = elapsedTime s + (now' - now)).
Proof.
  intros Htask. unfold reload, saveTimerState, loadTimerState. simpl.
  rewrite Htask. unfold phase.
  destruct (isActive s) eqn:Ha, (isPaused s) eqn:Hp; simpl;
    repeat split; try discriminate.
  - intros now' Hclock. unfold tick. simpl.
    destruct (Z.eqb_spec (now - elapsedTime s) 0); [lia|]. simpl. lia.
Qed.

(** X23. [stopTimer] is idempotent, and on an idle timer it writes no task
    time. *)
Theorem stopTimer_idempotent_and_idle (s : TimerState) :
  stopTimer (stopTimer s) = stopTimer s
  /\ (phase s = Idle ->
      taskTimes (stopTimer s) = taskTimes s
      /\ stored_task_times (stopTimer s) = stored_task_times s
      /\ lastElapsedTime (stopTimer s) = lastElapsedTime s).
Proof.
  split.
  - unfold stopTimer. destruct (isActive s), (activeTask s); reflexivity.
  - unfold phase, stopTimer. destruct (isActive s); [destruct (isPaused s); discriminate|].
    intros _. simpl. auto.
Qed.

(** X24. The pause button. From Running it pauses; from Paused, pressed at
    [now], it resumes with the start time [now - lastElapsedTime]; pressed
    twice from Running (the second time at [now]) the timer runs again and
    its next tick at [now'] shows the elapsed time at the pause plus
    [now' - now]. *)
Theorem handlePause_toggles (s : TimerState) (now now' : Z) :
  phase s = Running ->
  elapsedTime s < now ->
  phase (handlePause s now) = Paused
  /\ elapsedTime (handlePause s now) = elapsedTime s
  /\ phase (handlePause (handlePause s now) now) = Running
  /\ elapsedTime (tick (handlePause (handlePause s now) now) now')
     = elapsedTime s + (now' - now).
Proof.
  destruct s as [task0 active0 paused0 el st pt le times stimes sstate].
  unfold phase, handlePause, pauseTimer, resumeTimer, tick. simpl.
  destruct active0; [|discriminate].
  destruct paused0; [discriminate|].
  intros _ Hclock. simpl. repeat split.
  destruct (Z.eqb_spec (now - el) 0); [lia|]. simpl. lia.
Qed.

End TaskTimerFlags.

(** ** The gate's callbacks and effects *)
Section GateCallbacks.

(** X25. What the two callbacks never do. [onFaceDetected] and
    [onFaceNotDetected] neither start nor stop the timer and never touch
    its elapsed time, task, per-task times or stored entries, and they
    leave camera mode as it is; all they do to the timer is move it
    between Running and Paused. *)
Theorem callbacks_only_pause_or_resume
    (g : GateState) (t : TimerState) (result : option FaceAnalysisResult)
    (now : Z) :
  (isActive (snd (onFaceDetected g t result now)) = isActive t
   /\ elapsedTime (snd (onFaceDetected g t result now)) = elapsedTime t
   /\ activeTask (snd (onFaceDetected g t result now)) = activeTask t
   /\ taskTimes (snd (onFaceDetected g t result now)) = taskTimes t
   /\ stored_task_times (snd (onFaceDetected g t result now))
      = stored_task_times t
   /\ isCameraMode (fst (onFaceDetected g t result now)) = isCameraMode g)
  /\ (isActive (snd (onFaceNotDetected g t)) = isActive t
      /\ elapsedTime (snd (onFaceNotDetected g t)) = elapsedTime t
      /\ activeTask (snd (onFaceNotDetected g t)) = activeTask t
      /\ taskTimes (snd (onFaceNotDetected g t)) = taskTimes t
      /\ stored_task_times (snd (onFaceNotDetected g t)) = stored_task_times t
      /\ isCameraMode (fst (onFaceNotDetected g t)) = isCameraMode g
      /\ isWaitingForFace (fst (onFaceNotDetected g t)) = isWaitingForFace g).
Proof.
  destruct t as [task0 active0 paused0 el st pt le times stimes sstate].
  destruct g as [cam waiting can since pending lastr].
  unfold onFaceDetected, onFaceNotDetected, pauseTimer, resumeTimer,
    startFaceDetectionTimer, setLastAnalysisResult.
  simpl. split.
  - destruct result as [r|]; simpl; [|repeat split].
    destruct waiting, can, cam, active0, paused0, (noStartTime since),
      (40 <? attentionScore r), (fatigueLevel r), (attentionScore r <? 30);
      simpl; repeat split.
  - destruct active0, cam, paused0, task0; simpl; repeat split.
Qed.


(** X28. Automatic start. With the face confirmed ([canStartTimer]) and the
    timer idle: if a task is selected the effect starts it, resuming from
    its stored time, and uses the confirmation up, so that running the
    effect again changes nothing; if no task is selected the timer stays
    idle and the confirmation is kept. After [stopTimer] the task is still
    selected, so a confirmation restarts that task from the time just
    stored. *)
Theorem autoStart_consumes_confirmation
    (g : GateState) (t : TimerState) (now now' : Z) :
  canStartTimer g = true ->
  phase t = Idle ->
  (forall tk : Task,
      activeTask t = Some tk ->
      snd (autoStartEffect g t now) = startTimer t tk now
      /\ canStartTimer (fst (autoStartEffect g t now)) = false
      /\ isWaitingForFace (fst (autoStartEffect g t now)) = false
      /\ autoStartEffect (fst (autoStartEffect g t now))
                         (snd (autoStartEffect g t now)) now'
         = autoStartEffect g t now)
  /\ (activeTask t = None ->
      snd (autoStartEffect g t now) = t
      /\ canStartTimer (fst (autoStartEffect g t now)) = true
      /\ isWaitingForFace (fst (autoStartEffect g t now)) = false)
  /\ (forall (s : TimerState) (tk : Task),
        t = stopTimer s -> isActive s = true -> activeTask s = Some tk ->
        0 <= elapsedTime s ->
        phase (snd (autoStartEffect g t now)) = Running
        /\ activeTask (snd (autoStartEffect g t now)) = Some tk
        /\ elapsedTime (snd (autoStartEffect g t now)) = elapsedTime s).
Proof.
  intros Hcan Hidle.
  assert (Hact : isActive t = false).
  { unfold phase in Hidle. destruct (isActive t); [|reflexivity].
    destruct (isPaused t); discriminate. }
  unfold autoStartEffect. rewrite Hcan, Hact. simpl.
  split; [|split].
  - intros tk Htk. rewrite Htk. simpl.
    split; [reflexivity|]. split; [reflexivity|]. split; [reflexivity|].
    reflexivity.
  - intros Hnone. rewrite Hnone. simpl. auto.
  - intros s tk -> Hs Htk He.
    assert (Hkept : activeTask (stopTimer s) = Some tk).
    { unfold stopTimer. rewrite Hs, Htk. reflexivity. }
    rewrite Hkept. simpl.
    assert (Hprev : previousTimeFor (taskTimes (stopTimer s)) tk = elapsedTime s).
    { unfold previousTimeFor, stopTimer. rewrite Hs, Htk. simpl.
      rewrite lookup_insert_eq. reflexivity. }
    rewrite startTimer_state by (rewrite Hprev; exact He).
    rewrite Hprev. unfold phase. simpl. auto.
Qed.

End GateCallbacks.

(** ** The callbacks as the interval holds them *)
Section HeldCallbacks.

(** X27. Within one session the callbacks pause or resume, never both.
    The interval holds the callbacks of one render. If that render's
    timer is not paused, no delivery resumes the current timer: its start
    time is left alone and a paused timer stays paused. If that render's
    timer is paused, no delivery pauses the current timer, also when the
    result shows fatigue [high]; and in camera mode, the wait for a face
    over, every result with a score above 40 resumes again, setting the
    start time to [now] less the held [lastElapsedTime].
    [onFaceNotDetected] never resumes. *)
Theorem held_callbacks_pause_or_resume_not_both
    (hg : GateState) (ht : TimerState) (g : GateState) (t : TimerState)
    (r : FaceAnalysisResult) (now : Z) :
  (isPaused ht = false ->
     startTime (snd (heldOnFaceDetected hg ht g t (Some r) now)) = startTime t
     /\ (isPaused t = true ->
         isPaused (snd (heldOnFaceDetected hg ht g t (Some r) now)) = true))
  /\ (isPaused ht = true ->
      lastElapsedTime (snd (heldOnFaceDetected hg ht g t (Some r) now))
      = lastElapsedTime t
      /\ (isPaused t = false ->
          isPaused (snd (heldOnFaceDetected hg ht g t (Some r) now)) = false)
      /\ (isCameraMode hg = true -> isWaitingForFace hg = false ->
          isActive ht = true -> 40 < attentionScore r ->
          isPaused (snd (heldOnFaceDetected hg ht g t (Some r) now)) = false
          /\ startTime (snd (heldOnFaceDetected hg ht g t (Some r) now))
             = Some (now - lastElapsedTime ht)))
  /\ startTime (snd (heldOnFaceNotDetected hg ht g t)) = startTime t
  /\ (isPaused t = true ->
      isPaused (snd (heldOnFaceNotDetected hg ht g t)) = true).
Proof.
  unfold heldOnFaceDetected, heldOnFaceNotDetected, heldResumeTimer,
    heldPauseTimer.
  split; [|split; [|split]].
  - intros Hp. rewrite Hp. rewrite !andb_false_r. simpl.
    destruct (isWaitingForFace hg && negb (canStartTimer hg));
      destruct (isCameraMode hg && _ && isActive ht && true);
      destruct (isActive ht); simpl; auto.
  - intros Hp. rewrite Hp. simpl. rewrite !andb_false_r.
    split; [|split].
    + destruct (isWaitingForFace hg && negb (canStartTimer hg));
        [reflexivity|].
      destruct (isCameraMode hg && isActive ht && true
                && (40 <? attentionScore r)); reflexivity.
    + intros Hcur.
      destruct (isWaitingForFace hg && negb (canStartTimer hg));
        [exact Hcur|].
      destruct (isCameraMode hg && isActive ht && true
                && (40 <? attentionScore r)); [reflexivity|exact Hcur].
    + intros Hcam Hwait Hact Hscore. rewrite Hcam, Hwait, Hact. simpl.
      destruct (Z.ltb_spec 40 (attentionScore r)); [|lia].
      split; reflexivity.
  - destruct (negb (isActive ht)); [reflexivity|].
    destruct (isCameraMode hg && isActive ht && negb (isPaused ht)
              && bool_decide (is_Some (activeTask ht))); [|reflexivity].
    destruct (isActive ht && negb (isPaused ht)); reflexivity.
  - intros Hcur.
    destruct (negb (isActive ht)); [exact Hcur|].
    destruct (isCameraMode hg && isActive ht && negb (isPaused ht)
              && bool_decide (is_Some (activeTask ht))); [|exact Hcur].
    destruct (isActive ht && negb (isPaused ht)); [reflexivity|exact Hcur].
Qed.

End HeldCallbacks.
(** ** The further statements at concrete inputs *)
Section FurtherConcreteRuns.


Lemma score_ear_01_03 :
  calculateAttentionScore 0.1 0.2 {| yaw := 0; pitch := 0; roll := 0 |}
                          "center" 15
  <= calculateAttentionScore 0.3 0.2 {| yaw := 0; pitch := 0; roll := 0 |}
                             "center" 15.
Proof.
  apply (attentionScore_monotone_in_ear 0.1 0.3 0.2
           {| yaw := 0; pitch := 0; roll := 0 |} "center" 15).
  reflexivity.
Defined.

Lemma fatigue_70_to_20 :
  fatigueRank (assessFatigueLevel 70 0.3 0)
  <= fatigueRank (assessFatigueLevel 20 0.1 7).
Proof.
  apply (fatigue_monotone 70 20 0.3 0.1 0 7); [lia | reflexivity | lia].
Defined.

(** The first analysed frame of [sampleFace]: no blink logged yet. *)
Lemma first_frame_is_drowsy :
  exists (st' : DetectionState) (r : FaceAnalysisResult),
    sampleStep constAtan2 constAtan constRound
               detectingSince0 true (Detected (Some sampleFace)) 150
    = (st', Some (FaceDetected r))
    /\ blinkRate r = 0.
Proof.
  eexists. eexists. split; [reflexivity|].
  apply (low_blink_rate_frames_are_drowsy
           constAtan2 constAtan constRound
           detectingSince0 _ true sampleFace 150 _ eq_refl).
  reflexivity.
Defined.


Lemma first_frame_histories :
  exists (st' : DetectionState) (r : FaceAnalysisResult),
    sampleStep constAtan2 constAtan constRound
               detectingSince0 true (Detected (Some sampleFace)) 150
    = (st', Some (FaceDetected r))
    /\ length (earHistory st') = 1%nat.
Proof.
  eexists. eexists. split; [reflexivity|].
  apply (histories_are_capped
           constAtan2 constAtan constRound
           detectingSince0 _ true sampleFace 150 _ eq_refl).
Defined.


(** "Study": 120000ms stored, run from 1000000 to 1003000, paused until
    1010000, run until 1012000: 125000ms. *)
Lemma study_two_running_phases :
  0 <= previousTimeFor (taskTimes studyStored) study < 1000000
  /\ elapsedTime
       (tick (resumeTimer
                (pauseTimer (tick (startTimer studyStored study 1000000)
                                  1003000))
                1010000)
             1012000)
     = 125000.
Proof.
  assert (H1 : 0 <= previousTimeFor (taskTimes studyStored) study < 1000000)
    by (change (0 <= 120000 < 1000000); lia).
  split; [exact H1|].
  destruct (elapsed_is_sum_of_running_phases
              studyStored study 1000000 1003000 1010000 1012000 H1)
    as (He & _).
  - change (120000 + (1003000 - 1000000) < 1010000). lia.
  - exact He.
Defined.

Lemma study_stop_then_start :
  isActive studyRunning = true
  /\ elapsedTime (startTimer (stopTimer studyRunning) study 1020000) = 123000.
Proof.
  split; [reflexivity|].
  apply (stop_then_start_continues studyRunning study 1020000);
    [reflexivity | reflexivity | change (0 <= 123000); lia].
Defined.

Lemma study_reset_then_start :
  activeTask studyRunning = Some study
  /\ elapsedTime (startTimer (resetTimer studyRunning) study 1020000) = 0.
Proof.
  split; [reflexivity|].
  apply (reset_forgets_only_the_active_task studyRunning study 1020000).
  reflexivity.
Defined.

Lemma studyRunning_flags_ok : timerFlagsOk studyRunning.
Proof.
  split; [discriminate | intros _; eexists; reflexivity].
Defined.

Lemma studyRunning_pause_keeps_flags :
  timerFlagsOk studyRunning /\ timerFlagsOk (pauseTimer studyRunning).
Proof.
  split; [exact studyRunning_flags_ok|].
  apply (timer_operations_keep_flags studyRunning studyRunning_flags_ok).
Defined.

Lemma study_save_reload :
  activeTask studyRunning = Some study
  /\ elapsedTime (reload (saveTimerState studyRunning) 2000000) = 123000.
Proof.
  split; [reflexivity|].
  apply (save_then_reload_restores_timer studyRunning study 2000000).
  reflexivity.
Defined.

Lemma study_pause_button :
  phase studyRunning = Running
  /\ phase (handlePause studyRunning 1005000) = Paused.
Proof.
  split; [reflexivity|].
  apply (handlePause_toggles studyRunning 1005000 1006000);
    [reflexivity | change (123000 < 1005000); lia].
Defined.


Lemma confirmed_after_stop_restarts_study :
  canStartTimer confirmedGate = true
  /\ phase (stopTimer studyRunning) = Idle
  /\ elapsedTime (snd (autoStartEffect confirmedGate (stopTimer studyRunning)
                                       1020000)) = 123000.
Proof.
  split; [reflexivity|]. split; [reflexivity|].
  destruct (autoStart_consumes_confirmation
              confirmedGate (stopTimer studyRunning) 1020000 1020016
              eq_refl eq_refl)
    as (_ & _ & Hstop).
  apply (Hstop studyRunning study eq_refl eq_refl eq_refl).
  change (0 <= 123000). lia.
Defined.

(** The 200ms cycle of [blinkCycle200] in the session the first render
    starts at 1000: afterwards the log is empty, and the current eye flag
    is still the one the tick at 1300 wrote. *)
Lemma blink_cycle_200ms_in_session :
  isEyeClosed (blink (initialDetectionState 900)) = false
  /\ (meanEAR closedFace <? BLINK_THRESHOLD)%float = true
  /\ (BLINK_THRESHOLD <=? meanEAR sampleFace)%float = true
  /\ isEyeClosed
       (blink (fst (session constAtan2 constAtan constRound
                            (initialDetectionState 900)
                            (startDetection (initialDetectionState 900) 1000)
                            blinkCycle200))) = true
  /\ blinkTimestamps
       (blink (fst (session constAtan2 constAtan constRound
                            (initialDetectionState 900)
                            (startDetection (initialDetectionState 900) 1000)
                            blinkCycle200))) = [].
Proof.
  split; [reflexivity|]. split; [reflexivity|]. split; [reflexivity|].
  split; [reflexivity|].
  rewrite (session_from_open_eye_records_no_blink
             constAtan2 constAtan constRound
             (initialDetectionState 900)
             (startDetection (initialDetectionState 900) 1000)
             blinkCycle200 eq_refl).
  reflexivity.
Defined.


(** The absent sample at 5950 on [waitingSince1150], more than 5000ms
    after the mount at 900: the confirmation start is reset. *)
Lemma noFace_sample_at_5950 :
  isDetecting (detection waitingSince1150) = true
  /\ faceDetectedStartTime
       (gate (intervalSample constAtan2 constAtan constRound
                             mountedAt900 waitingSince1150
                             true (Detected None) 5950)) = None.
Proof.
  split; [reflexivity|].
  apply (noFace_sample_resets_confirmation_after_5000ms
           constAtan2 constAtan constRound
           mountedAt900 waitingSince1150 5950 eq_refl).
  change (5000 < 5950 - 900). lia.
Defined.

(** "Study" with 120000ms stored, started at 1000000, with ticks at
    1001000, 1002000 and 1003000 before the pause. *)
Lemma study_120000_last_tick_at_3000 :
  previousTimeFor (taskTimes studyStored) study = 120000
  /\ phase (pauseTimer (fold_left tick [1001000; 1002000; 1003000]
                                  (startTimer studyStored study 1000000)))
     = Paused
  /\ elapsedTime (pauseTimer (fold_left tick [1001000; 1002000; 1003000]
                                        (startTimer studyStored study 1000000)))
     = 123000.
Proof.
  split; [reflexivity|].
  destruct (startTimer_resumes_pause_keeps_last_tick
              studyStored study 1000000 [1001000; 1002000; 1003000])
    as (_ & _ & _ & _ & _ & Hphase & _ & H123).
  - change (0 <= 120000 < 1000000). lia.
  - split; [exact Hphase|]. apply H123; reflexivity.
Defined.

(** A held log with blinks at 1000 and 50000, asked at 60500 and at
    61500. *)
Lemma held_rate_at_60500_and_61500 :
  snd (heldDetectBlink
         {| blinkTimestamps := [1000; 50000]; isEyeClosed := false;
            lastBlinkTime := 49800 |}
         initialBlinkState 0.3%float 61500)
  <= snd (heldDetectBlink
            {| blinkTimestamps := [1000; 50000]; isEyeClosed := false;
               lastBlinkTime := 49800 |}
            initialBlinkState 0.3%float 60500).
Proof.
  apply (held_blink_rate_never_rises
           {| blinkTimestamps := [1000; 50000]; isEyeClosed := false;
              lastBlinkTime := 49800 |}
           initialBlinkState initialBlinkState 0.3%float 0.3%float
           60500 61500).
  lia.
Defined.

(** A face at 150 in the session started at the mount. *)
Lemma face_at_150_writes_clock :
  isDetecting detectingSince0 = true
  /\ lastDetectionTime
       (fst (intervalTick constAtan2 constAtan constRound
                          (initialDetectionState 0) detectingSince0
                          true (Detected (Some sampleFace)) 150))
     = 150.
Proof.
  split; [reflexivity|].
  apply (face_tick_writes_absence_clock
           constAtan2 constAtan constRound
           (initialDetectionState 0) detectingSince0 sampleFace 150 eq_refl).
Defined.

(** The absence of [absenceTimes] in the session started at the mount. *)
Lemma absence_notifies_late_samples :
  isDetecting detectingSince0 = true
  /\ snd (session constAtan2 constAtan constRound
                  (initialDetectionState 0) detectingSince0
                  (absentAt [4950; 5100; 5250]))
     = [(5100, FaceNotDetected); (5250, FaceNotDetected)].
Proof.
  split; [reflexivity|].
  rewrite (session_noFace_notifications_are_late_samples
             constAtan2 constAtan constRound
             (initialDetectionState 0) detectingSince0
             [4950; 5100; 5250] eq_refl).
  reflexivity.
Defined.

End FurtherConcreteRuns.
